(** * wal_e.worker.upload: a shallow embedding and its verified properties

    The file embeds [src/wal_e/worker/upload.py] (Python 2): the WAL segment
    uploader [WalUploader], the two-destination uploader [WalDualUploader]
    with its helper thread [WalNfsThread], and the base-backup volume
    uploader [PartitionUploader] with its retry classifier.

    Python code runs in the monad [M]: a computation takes the observable
    world (event trace, spill file, blobstore attempt counter, clock) and
    either returns a value or raises an exception triple. *)

From Stdlib Require Import ZArith Lia Ascii.
From stdpp Require Import base numbers strings list gmap pretty.

(** ** Python primitives *)

Module Py.

(** [s.rstrip(c)] for a one-character argument: every trailing [c] goes. *)
Fixpoint rstrip (c : ascii) (s : string) : string :=
  match s with
  | EmptyString => EmptyString
  | String a rest =>
      match rstrip c rest with
      | EmptyString =>
          if bool_decide (a = c) then EmptyString else String a EmptyString
      | String b r => String a (String b r)
      end
  end.

(** A run of [n] copies of the character [c]. *)
Fixpoint replicate_char (n : nat) (c : ascii) : string :=
  match n with
  | O => EmptyString
  | S n' => String c (replicate_char n' c)
  end.

(** [str(n)] for an int. *)
Definition str_int (n : Z) : string := pretty n.

(** [str(b)] for a bool. *)
Definition str_bool (b : bool) : string := if b then "True" else "False".

(** Left padding of a digit string with zeros up to width [w]. *)
Definition zero_pad (w : nat) (digits : string) : string :=
  replicate_char (w - String.length digits) "0" +:+ digits.

(** [format(n, '0{w}d')]: sign-aware zero padding to width [w]. *)
Definition format_0d (w : nat) (n : Z) : string :=
  if bool_decide (n < 0)%Z
  then "-" +:+ zero_pad (w - 1) (pretty (Z.abs_N n))
  else zero_pad w (pretty (Z.to_N n)).

(** [int(s)] on a string of decimal digits, most significant digit first;
    [None] where Python raises ValueError. *)
Definition digit_value (c : ascii) : option N :=
  let k := N_of_ascii c in
  if bool_decide (48 <= k < 58)%N then Some (k - 48)%N else None.

Fixpoint parse_digits (acc : N) (s : string) : option N :=
  match s with
  | EmptyString => Some acc
  | String c rest =>
      match digit_value c with
      | Some d => parse_digits (10 * acc + d)%N rest
      | None => None
      end
  end.

(** A class object: its name and its method resolution order (the class
    itself first, then every ancestor). *)
Record pyclass := { cls_name : string; cls_mro : list string }.

Definition issubclass (c : pyclass) (base : pyclass) : bool :=
  bool_decide (cls_name base ∈ cls_mro c).

Definition BaseException : pyclass :=
  {| cls_name := "BaseException"; cls_mro := ["BaseException"; "object"] |}.
Definition KeyboardInterrupt : pyclass :=
  {| cls_name := "KeyboardInterrupt";
     cls_mro := ["KeyboardInterrupt"; "BaseException"; "object"] |}.
Definition SystemExit : pyclass :=
  {| cls_name := "SystemExit";
     cls_mro := ["SystemExit"; "BaseException"; "object"] |}.
Definition Exception : pyclass :=
  {| cls_name := "Exception";
     cls_mro := ["Exception"; "BaseException"; "object"] |}.
Definition StandardError : pyclass :=
  {| cls_name := "StandardError";
     cls_mro := "StandardError" :: cls_mro Exception |}.
Definition NameError : pyclass :=
  {| cls_name := "NameError"; cls_mro := "NameError" :: cls_mro StandardError |}.
Definition TypeError : pyclass :=
  {| cls_name := "TypeError"; cls_mro := "TypeError" :: cls_mro StandardError |}.
Definition ValueError : pyclass :=
  {| cls_name := "ValueError"; cls_mro := "ValueError" :: cls_mro StandardError |}.
Definition EnvironmentError : pyclass :=
  {| cls_name := "EnvironmentError";
     cls_mro := "EnvironmentError" :: cls_mro StandardError |}.
Definition IOError : pyclass :=
  {| cls_name := "IOError"; cls_mro := "IOError" :: cls_mro EnvironmentError |}.
(** [socket.error] and one of its subclasses. *)
Definition socket_error : pyclass :=
  {| cls_name := "socket.error"; cls_mro := "socket.error" :: cls_mro IOError |}.
Definition socket_timeout : pyclass :=
  {| cls_name := "socket.timeout";
     cls_mro := "socket.timeout" :: cls_mro socket_error |}.
(** [boto.exception.S3ResponseError] and its ancestors in boto. *)
Definition BotoServerError : pyclass :=
  {| cls_name := "boto.exception.BotoServerError";
     cls_mro := "boto.exception.BotoServerError" :: cls_mro StandardError |}.
Definition StorageResponseError : pyclass :=
  {| cls_name := "boto.exception.StorageResponseError";
     cls_mro := "boto.exception.StorageResponseError" :: cls_mro BotoServerError |}.
Definition S3ResponseError : pyclass :=
  {| cls_name := "boto.exception.S3ResponseError";
     cls_mro := "boto.exception.S3ResponseError" :: cls_mro StorageResponseError |}.

(** An exception instance: its class, what [str()] gives for it, and its
    [error_code] attribute ([None] is Python's None, the value boto gives
    the attribute when the response carried no code). *)
Record exc_instance := {
  exc_type : pyclass;
  exc_str : string;
  exc_error_code : option string
}.

(** A traceback: the frames the exception has passed, innermost first. *)
Definition traceback := list string.

(** An exception in flight, as [sys.exc_info()] shows it in an except
    clause: type, value (the instance), traceback. *)
Record raised := { r_typ : pyclass; r_value : exc_instance; r_tb : traceback }.

(** [raise cls(msg)] at the frame [here]. *)
Definition new_exception (cls : pyclass) (msg : string) (here : string) : raised :=
  {| r_typ := cls;
     r_value := {| exc_type := cls; exc_str := msg; exc_error_code := None |};
     r_tb := [here] |}.

(** [raise ex] for an instance [ex]: the traceback starts afresh. *)
Definition raise_instance (ex : exc_instance) (here : string) : raised :=
  {| r_typ := exc_type ex; r_value := ex; r_tb := [here] |}.

(** [errno.EEXIST]: 17 on Linux, the BSDs, macOS and Windows. *)
Definition EEXIST : Z := 17.

End Py.
Import Py.

(** ** The world and the monad of Python computations *)

Inductive log_level := INFO | ERROR.

(** What a run leaves behind, in the order it happened.  Log records are
    the logger calls of the source; the other events mark the calls into
    collaborators (thread start and join, the secondary push, the primary
    upload, the compressed transfer, the spill file and the blobstore). *)
Inductive event :=
| EvLog (level : log_level) (msg detail : string)
        (structured : list (string * string))
| EvThreadStart
| EvPush (path : string)
| EvPrimary (path : string)
| EvJoin
| EvLzopPut (url path : string)
| EvSeek (offset : nat)
| EvPut (url : string) (pos_at_entry : nat) (offered : list Byte.byte)
| EvBackoff.

(** The spill file of a volume upload: its bytes and its read position. *)
Record tempfile := { tf_data : list Byte.byte; tf_pos : nat }.

Record world := {
  w_trace : list event;
  w_tf : tempfile;
  w_puts : nat;        (* blobstore PUT attempts made so far *)
  w_clock : Z          (* what [time.time()] reads *)
}.

Definition world0 : world :=
  {| w_trace := []; w_tf := {| tf_data := []; tf_pos := 0 |};
     w_puts := 0; w_clock := 0 |}.

Inductive outcome (A : Type) :=
| Returns (a : A)
| Raises (e : raised).
Arguments Returns {A} a.
Arguments Raises {A} e.

Definition M (A : Type) : Type := world -> outcome A * world.

Definition ret {A} (a : A) : M A := fun w => (Returns a, w).

Definition bind {A B} (c : M A) (k : A -> M B) : M B :=
  fun w =>
    match c w with
    | (Returns a, w1) => k a w1
    | (Raises e, w1) => (Raises e, w1)
    end.

Definition raise {A} (e : raised) : M A := fun w => (Raises e, w).

(** [try: c  except cls as e: h e]: the handler runs when the exception's
    type is a subclass of [cls]; any other exception passes through. *)
Definition try_except {A} (c : M A) (cls : pyclass) (h : exc_instance -> M A) : M A :=
  fun w =>
    match c w with
    | (Returns a, w1) => (Returns a, w1)
    | (Raises e, w1) =>
        if issubclass (r_typ e) cls then h (r_value e) w1 else (Raises e, w1)
    end.

Definition emit (ev : event) : M unit :=
  fun w =>
    (Returns tt,
     {| w_trace := w_trace w ++ [ev]; w_tf := w_tf w;
        w_puts := w_puts w; w_clock := w_clock w |}).

(** What a collaborator outside the monad did: lift its outcome. *)
Definition lift {A} (o : outcome A) : M A := fun w => (o, w).

#[export] Instance M_ret : MRet M := @ret.
#[export] Instance M_bind : MBind M := fun A B k c => bind c k.

(** The double quote character, for the messages that quote a path. *)
Definition dq : string := String (ascii_of_nat 34) EmptyString.

Definition logger_info (msg detail : string) (structured : list (string * string))
  : M unit := emit (EvLog INFO msg detail structured).

Definition logger_error (msg : string) : M unit := emit (EvLog ERROR msg "" []).

(** ** WalUploader *)

Record WalSegment := { seg_name : string; seg_path : string }.

(** The measured rate, as [do_lzop_put] hands it over: text in KiB/s. *)
Definition rate := string.

Record WalUploader := {
  layout_prefix : string;       (* self.layout.prefix *)
  layout_path_prefix : string;  (* self.layout.path_prefix *)
  wu_creds : string;
  wu_gpg_key_id : option string
}.

Section WalUploaderCode.

(** [storage.CURRENT_VERSION], a constant of [wal_e.storage]. *)
Variable CURRENT_VERSION : string.

(** [worker_util.do_lzop_put creds url path gpg_key]: compresses and sends
    the file, and returns the rate or raises. *)
Variable do_lzop_put : string -> string -> string -> option string -> outcome rate.

(** The key of a segment: the format string of [upload_to_blobstore]. *)
Definition wal_url (prefix name : string) : string :=
  rstrip "/" prefix +:+ "/wal_" +:+ CURRENT_VERSION +:+ "/" +:+ name +:+ ".lzo".

(** [WalUploader.upload_to_blobstore]; the body has no return statement,
    so a call that does not raise gives Python's None, here [None]. *)
Definition upload_to_blobstore (self : WalUploader) (segment : WalSegment)
  : M (option rate) :=
  let url := wal_url (layout_prefix self) (seg_name segment) in
  logger_info "begin archiving a file"
    ("Uploading " +:+ dq +:+ seg_path segment +:+ dq +:+ " to " +:+ dq +:+ url
       +:+ dq +:+ ".")
    [("action", "push-wal"); ("key", url); ("seg", seg_name segment);
     ("prefix", layout_path_prefix self); ("state", "begin")] ;;
  emit (EvLzopPut url (seg_path segment)) ;;
  kib_per_second ←
    lift (do_lzop_put (wu_creds self) url (seg_path segment) (wu_gpg_key_id self));
  logger_info "completed archiving to a file "
    ("Archiving to " +:+ dq +:+ url +:+ dq +:+ " complete at " +:+ kib_per_second
       +:+ "KiB/s. ")
    [("action", "push-wal"); ("key", url); ("rate", kib_per_second);
     ("seg", seg_name segment); ("prefix", layout_path_prefix self);
     ("state", "complete")] ;;
  mret None.

End WalUploaderCode.

(** *** Name resolution in [WalUploader.__call__] *)

(** What a module-level name is bound to. *)
Inductive pyobj :=
| ObjModule (name : string)
| ObjClass (name : string)
| ObjFunction (name : string)
| ObjInstance (name : string)
| ObjBuiltin (name : string).

(** The global namespace of [wal_e.worker.upload] once the module is
    loaded: the names its import statements, its assignment to [logger]
    and its four class statements bind, and the names every module has. *)
Definition module_globals : gmap string pyobj :=
  list_to_map
    [("__name__", ObjInstance "str"); ("__doc__", ObjInstance "NoneType");
     ("__file__", ObjInstance "str"); ("__package__", ObjInstance "str");
     ("__builtins__", ObjModule "__builtin__");
     ("socket", ObjModule "socket"); ("tempfile", ObjModule "tempfile");
     ("time", ObjModule "time"); ("threading", ObjModule "threading");
     ("subprocess", ObjModule "subprocess"); ("errno", ObjModule "errno");
     ("boto", ObjModule "boto");
     ("log_help", ObjModule "wal_e.log_help");
     ("pipebuf", ObjModule "wal_e.pipebuf");
     ("pipeline", ObjModule "wal_e.pipeline");
     ("storage", ObjModule "wal_e.storage");
     ("get_blobstore", ObjFunction "wal_e.blobstore.get_blobstore");
     ("PIPE", ObjInstance "int");
     ("retry", ObjFunction "wal_e.retries.retry");
     ("retry_with_count", ObjFunction "wal_e.retries.retry_with_count");
     ("do_lzop_put", ObjFunction "wal_e.worker.worker_util.do_lzop_put");
     ("format_kib_per_second",
      ObjFunction "wal_e.worker.worker_util.format_kib_per_second");
     ("logger", ObjInstance "WalELogger");
     ("WalUploader", ObjClass "WalUploader");
     ("WalDualUploader", ObjClass "WalDualUploader");
     ("WalNfsThread", ObjClass "WalNfsThread");
     ("PartitionUploader", ObjClass "PartitionUploader")].

(** The names of Python 2.7's [__builtin__] module. *)
Definition python_builtins : gset string :=
  list_to_set
    ["ArithmeticError"; "AssertionError"; "AttributeError"; "BaseException";
     "BufferError"; "BytesWarning"; "DeprecationWarning"; "EOFError";
     "Ellipsis"; "EnvironmentError"; "Exception"; "False";
     "FloatingPointError"; "FutureWarning"; "GeneratorExit"; "IOError";
     "ImportError"; "ImportWarning"; "IndentationError"; "IndexError";
     "KeyError"; "KeyboardInterrupt"; "LookupError"; "MemoryError";
     "NameError"; "None"; "NotImplemented"; "NotImplementedError"; "OSError";
     "OverflowError"; "PendingDeprecationWarning"; "ReferenceError";
     "RuntimeError"; "RuntimeWarning"; "StandardError"; "StopIteration";
     "SyntaxError"; "SyntaxWarning"; "SystemError"; "SystemExit"; "TabError";
     "True"; "TypeError"; "UnboundLocalError"; "UnicodeDecodeError";
     "UnicodeEncodeError"; "UnicodeError"; "UnicodeTranslateError";
     "UnicodeWarning"; "UserWarning"; "ValueError"; "Warning";
     "ZeroDivisionError"; "__debug__"; "__doc__"; "__import__"; "__name__";
     "__package__"; "abs"; "all"; "any"; "apply"; "basestring"; "bin";
     "bool"; "buffer"; "bytearray"; "bytes"; "callable"; "chr";
     "classmethod"; "cmp"; "coerce"; "compile"; "complex"; "copyright";
     "credits"; "delattr"; "dict"; "dir"; "divmod"; "enumerate"; "eval";
     "execfile"; "exit"; "file"; "filter"; "float"; "format"; "frozenset";
     "getattr"; "globals"; "hasattr"; "hash"; "help"; "hex"; "id"; "input";
     "int"; "intern"; "isinstance"; "issubclass"; "iter"; "len"; "license";
     "list"; "locals"; "long"; "map"; "max"; "memoryview"; "min"; "next";
     "object"; "oct"; "open"; "ord"; "pow"; "print"; "property"; "quit";
     "range"; "raw_input"; "reduce"; "reload"; "repr"; "reversed"; "round";
     "set"; "setattr"; "slice"; "sorted"; "staticmethod"; "str"; "sum";
     "super"; "tuple"; "type"; "unichr"; "unicode"; "vars"; "xrange"; "zip"].

(** Where a name used in a function body is found.  A name the function
    does not bind is looked up in the module's globals and then in the
    builtins; the names of the enclosing class body are not in scope. *)
Inductive binding :=
| Local
| Global (o : pyobj)
| Unbound.

Definition resolve_name (locals : list string) (globals : gmap string pyobj)
    (builtins : gset string) (name : string) : binding :=
  if bool_decide (name ∈ locals) then Local
  else match globals !! name with
       | Some o => Global o
       | None =>
           if bool_decide (name ∈ builtins) then Global (ObjBuiltin name)
           else Unbound
       end.

Section WalUploaderCall.

(** What calling a module-level or builtin object with one segment does;
    nothing in this file fixes it. *)
Variable call_object : pyobj -> WalSegment -> M (option rate).

(** What calling a local variable of [__call__] ([self] or [segment]) with
    one segment does. *)
Variable call_local : string -> WalSegment -> M (option rate).

(** [WalUploader.__call__]: its body is the expression statement
    [upload_to_blobstore(segment)], whose callee is a bare name. *)
Definition WalUploader___call__ (self : WalUploader) (segment : WalSegment)
  : M (option rate) :=
  match resolve_name ["self"; "segment"] module_globals python_builtins
          "upload_to_blobstore" with
  | Unbound =>
      raise (new_exception NameError
               "global name 'upload_to_blobstore' is not defined"
               "WalUploader.__call__")
  | Global callee => call_object callee segment ;; mret None
  | Local => call_local "upload_to_blobstore" segment ;; mret None
  end.

End WalUploaderCall.

(** ** WalNfsThread *)

Record WalNfsThread := {
  thr_segment : WalSegment;
  thr_push_function : WalSegment -> outcome Z;
  thr_success : bool
}.

(** [success = False] is the class attribute every new thread starts with. *)
Definition WalNfsThread___init__ (segment : WalSegment)
    (push_function : WalSegment -> outcome Z) : WalNfsThread :=
  {| thr_segment := segment; thr_push_function := push_function;
     thr_success := false |}.

(** [WalNfsThread.run].  An exception of the push function ends the
    thread where it is raised: it never reaches the starting thread, and
    [success] keeps its value. *)
Definition WalNfsThread_run (self : WalNfsThread) : M WalNfsThread :=
  emit (EvPush (seg_path (thr_segment self))) ;;
  match thr_push_function self (thr_segment self) with
  | Returns return_code =>
      if bool_decide (return_code = 0%Z) || bool_decide (return_code = EEXIST)
      then mret {| thr_segment := thr_segment self;
                   thr_push_function := thr_push_function self;
                   thr_success := true |}
      else mret self
  | Raises _ => mret self
  end.

(** ** WalDualUploader *)

(** When the helper thread gets to run its body: before the caller enters
    the primary upload, or after the caller has left it.  Between [start()]
    and the return of [join()] it has run in either case. *)
Inductive schedule := PushBeforePrimary | PushAfterPrimary.

Definition run_when (now at_ : schedule) (thr : WalNfsThread) : M WalNfsThread :=
  match now, at_ with
  | PushBeforePrimary, PushBeforePrimary => WalNfsThread_run thr
  | PushAfterPrimary, PushAfterPrimary => WalNfsThread_run thr
  | _, _ => mret thr
  end.

Definition gluster_error_msg (segment : WalSegment) : string :=
  "failed to upload " +:+ seg_path segment +:+ " to gluster".

(** [WalDualUploader.__call__].  [blobstore_upload] is the method
    [self.blobstore_uploader.upload_to_blobstore], [upload_to_nfs] the
    method [self.nfs_uploader.upload_to_nfs].  An exception the except
    clause does not catch leaves the call at once; what the helper thread
    does after that is no longer part of the call's trace. *)
Definition WalDualUploader___call__
    (blobstore_upload : WalSegment -> M (option rate))
    (upload_to_nfs : WalSegment -> outcome Z)
    (sched : schedule) (segment : WalSegment) : M WalSegment :=
  let nfsThread := WalNfsThread___init__ segment upload_to_nfs in
  emit EvThreadStart ;;
  nfsThread ← run_when sched PushBeforePrimary nfsThread;
  attempt ←
    try_except
      (emit (EvPrimary (seg_path segment)) ;;
       blobstore_upload segment ;;
       mret (true, None))
      Exception
      (fun e =>
         logger_error
           ("failed to upload " +:+ seg_path segment +:+ " to blobstore") ;;
         mret (false, Some e));
  let success := attempt.1 in
  let ex := attempt.2 in
  nfsThread ← run_when sched PushAfterPrimary nfsThread;
  emit EvJoin ;;
  ex ←
    (if bool_decide (thr_success nfsThread = false) then
       let error_msg := gluster_error_msg segment in
       let ex :=
         match ex with
         | None =>
             Some {| exc_type := Exception; exc_str := error_msg;
                     exc_error_code := None |}
         | Some e => Some e
         end in
       logger_error error_msg ;; mret ex
     else mret ex);
  let res := success && thr_success nfsThread in
  logger_info
    ("push result " +:+ str_bool res +:+ " for file " +:+ seg_path segment)
    "" [] ;;
  match ex with
  | Some e => raise (raise_instance e "WalDualUploader.__call__")
  | None => mret segment
  end.

(** ** PartitionUploader *)

(** A volume of a base backup: its ordinal, and what pushing its tar
    stream through the upload pipeline leaves in the spill file (the
    compressed bytes), or the exception raised on the way. *)
Record TarPartition := {
  tp_name : Z;
  tp_tarfile_write : outcome (list Byte.byte)
}.

Record PartitionUploader := {
  pu_creds : string;
  backup_prefix : string;
  rate_limit : option Z;
  gpg_key : option string
}.

(** The key of a volume: the format string of [PartitionUploader.__call__]. *)
Definition partition_url (backup_prefix : string) (name : Z) : string :=
  rstrip "/" backup_prefix +:+ "/tar_partitions/part_" +:+ format_0d 8 name
    +:+ ".tar.lzo".

(** The inner function [standard_detail_message] of the classifier. *)
Definition standard_detail_message (tpart : TarPartition)
    (exc_processor_cxt : Z) (prefix : string) : string :=
  prefix +:+ "  There have been " +:+ str_int exc_processor_cxt
    +:+ " attempts to send the volume " +:+ str_int (tp_name tpart)
    +:+ " so far.".

(** [log_volume_failures_on_error exc_tup exc_processor_cxt].  The value
    of the triple is the exception instance, which is never a tuple, so
    [socketmsg] is the value itself and the message shows [str(value)]. *)
Definition log_volume_failures_on_error (tpart : TarPartition)
    (exc_tup : raised) (exc_processor_cxt : Z) : M unit :=
  let typ := r_typ exc_tup in
  let value := r_value exc_tup in
  let tb := r_tb exc_tup in
  if issubclass typ socket_error then
    let socketmsg := exc_str value in
    logger_info "Retrying send because of a socket error"
      (standard_detail_message tpart exc_processor_cxt
         ("The socket error's message is '" +:+ socketmsg +:+ "'."))
      []
  else if issubclass typ S3ResponseError
          && bool_decide (exc_error_code value = Some "RequestTimeTooSkewed")
  then
    logger_info "Retrying send because of a Request Skew time"
      (standard_detail_message tpart exc_processor_cxt "")
      []
  else
    raise {| r_typ := typ; r_value := value; r_tb := tb |}.

(** *** The spill file *)

Definition set_tf (tf : tempfile) : M unit :=
  fun w =>
    (Returns tt,
     {| w_trace := w_trace w; w_tf := tf; w_puts := w_puts w;
        w_clock := w_clock w |}).

Definition get_tf : M tempfile := fun w => (Returns (w_tf w), w).

(** [tf.seek(offset)]. *)
Definition tf_seek (offset : nat) : M unit :=
  emit (EvSeek offset) ;;
  tf ← get_tf;
  set_tf {| tf_data := tf_data tf; tf_pos := offset |}.

(** [time.time()]. *)
Definition time_time : M Z := fun w => (Returns (w_clock w), w).

(** *** The blobstore *)

(** What the store does at one PUT attempt: how many bytes it takes from
    the byte source, how long the attempt lasts, and how it ends. *)
Record put_behaviour := {
  pb_reads : nat;
  pb_elapsed : Z;
  pb_raises : option raised
}.

(** The store: its behaviour at the n-th PUT attempt it receives. *)
Definition blobstore := nat -> put_behaviour.

Record key := { key_size : nat }.

(** Modelled from the spec: the destination client's
    [put(credentials, key, byte-source) -> {size}] of [wal_e.blobstore],
    which is not among the sources.  It reads the byte source from the
    position it finds it at, and returns the transferred size or raises. *)
Definition uri_put_file (store : blobstore) (creds url : string) : M key :=
  fun w =>
    let tf := w_tf w in
    let b := store (w_puts w) in
    let offered := drop (tf_pos tf) (tf_data tf) in
    let sent := take (pb_reads b) offered in
    let w' :=
      {| w_trace := w_trace w ++ [EvPut url (tf_pos tf) offered];
         w_tf := {| tf_data := tf_data tf;
                    tf_pos := (tf_pos tf + length sent)%nat |};
         w_puts := S (w_puts w);
         w_clock := (w_clock w + pb_elapsed b)%Z |} in
    match pb_raises b with
    | None => (Returns {| key_size := length sent |}, w')
    | Some e => (Raises e, w')
    end.

(** *** The retry wrapper *)

(** Modelled from the spec: [wal_e.retries.retry_with_count], which is not
    among the sources.  It keeps the running attempt count and hands it to
    the classifier together with the failure. *)
Definition retry_with_count (side_effect_func : raised -> Z -> M unit)
  : raised -> option Z -> M Z :=
  fun exc_tup exc_processor_cxt =>
    let n := match exc_processor_cxt with
             | None => 1%Z
             | Some k => (k + 1)%Z
             end in
    side_effect_func exc_tup n ;; mret n.

(** Modelled from the spec: [wal_e.retries.retry], which is not among the
    sources.  It runs the operation; on a failure it hands the failure to
    the exception processor, and either the processor raises, which ends
    the loop with that exception, or the operation is run again after a
    backoff delay.  The policy has no bound on the attempts, so the loop
    takes fuel: the result [None] is a loop that has not ended within
    [fuel] attempts, and the world is then the one those attempts left. *)
Fixpoint retry {A} (fuel : nat) (exception_processor : raised -> option Z -> M Z)
    (f : M A) (exc_processor_cxt : option Z) (w : world)
  : option (outcome A) * world :=
  match fuel with
  | O => (None, w)
  | S fuel' =>
      match f w with
      | (Returns a, w1) => (Some (Returns a), w1)
      | (Raises exc_tup, w1) =>
          match exception_processor exc_tup exc_processor_cxt w1 with
          | (Raises e, w2) => (Some (Raises e), w2)
          | (Returns cxt, w2) =>
              retry fuel' exception_processor f (Some cxt)
                (snd (emit EvBackoff w2))
          end
      end
  end.

Section PartitionUploaderCode.

(** [worker_util.format_kib_per_second start finish size]. *)
Variable format_kib_per_second : Z -> Z -> nat -> string.

(** The store behind [self.blobstore]. *)
Variable store : blobstore.

(** The inner function [put_file_helper], before decoration. *)
Definition put_file_helper (self : PartitionUploader) (url : string) : M key :=
  tf_seek 0 ;;
  uri_put_file store (pu_creds self) url.

(** [put_file_helper] as decorated with
    [@retry(retry_with_count(log_volume_failures_on_error))]. *)
Definition retried_put_file_helper (fuel : nat) (self : PartitionUploader)
    (tpart : TarPartition) (url : string) (w : world)
  : option (outcome key) * world :=
  retry fuel (retry_with_count (log_volume_failures_on_error tpart))
    (put_file_helper self url) None w.

(** The first half of [__call__]: the volume goes through the pipeline
    into a fresh temporary file, whose position is then at its end. *)
Definition spill_volume (self : PartitionUploader) (tpart : TarPartition)
  : M string :=
  logger_info "beginning volume compression"
    ("Building volume " +:+ str_int (tp_name tpart) +:+ ".") [] ;;
  set_tf {| tf_data := []; tf_pos := 0 |} ;;
  spilled ← lift (tp_tarfile_write tpart);
  set_tf {| tf_data := spilled; tf_pos := length spilled |} ;;
  let url := partition_url (backup_prefix self) (tp_name tpart) in
  logger_info "begin uploading a base backup volume"
    ("Uploading to " +:+ dq +:+ url +:+ dq +:+ ".") [] ;;
  mret url.

(** Leaving the [with] block closes the temporary file, which deletes it. *)
Definition close_tf (w : world) : world :=
  {| w_trace := w_trace w; w_tf := {| tf_data := []; tf_pos := 0 |};
     w_puts := w_puts w; w_clock := w_clock w |}.

(** [PartitionUploader.__call__]. *)
Definition PartitionUploader___call__ (fuel : nat) (self : PartitionUploader)
    (tpart : TarPartition) (w : world) : option (outcome TarPartition) * world :=
  match (url ← spill_volume self tpart;
         clock_start ← time_time;
         mret (url, clock_start)) w with
  | (Raises e, w1) => (Some (Raises e), close_tf w1)
  | (Returns (url, clock_start), w1) =>
      match retried_put_file_helper fuel self tpart url w1 with
      | (None, w2) => (None, w2)
      | (Some (Raises e), w2) => (Some (Raises e), close_tf w2)
      | (Some (Returns k), w2) =>
          match (clock_finish ← time_time;
                 let kib_per_second :=
                   format_kib_per_second clock_start clock_finish (key_size k) in
                 logger_info "finish uploading a base backup volume"
                   ("Uploading to " +:+ dq +:+ url +:+ dq +:+ " complete at "
                      +:+ kib_per_second +:+ "KiB/s. ") [] ;;
                 mret tpart) w2 with
          | (o, w3) => (Some o, close_tf w3)
          end
      end
  end.

End PartitionUploaderCode.

(** ** The claimed key formats, as the specification words them *)

(** The prefix with one trailing slash removed, if it has one. *)
Fixpoint strip_one_trailing_slash (s : string) : string :=
  match s with
  | EmptyString => EmptyString
  | String a EmptyString => if bool_decide (a = "/"%char) then EmptyString else s
  | String a rest => String a (strip_one_trailing_slash rest)
  end.

(** [{prefix}/wal_{CURRENT_VERSION}/{name}.lzo] with the prefix stripped
    of exactly one trailing slash. *)
Definition spec_wal_url (CURRENT_VERSION prefix name : string) : string :=
  strip_one_trailing_slash prefix +:+ "/wal_" +:+ CURRENT_VERSION +:+ "/"
    +:+ name +:+ ".lzo".

(** [{backup_prefix}/tar_partitions/part_{n:08d}.tar.lzo] with the
    configured prefix as it is. *)
Definition spec_partition_url (backup_prefix : string) (n : Z) : string :=
  backup_prefix +:+ "/tar_partitions/part_" +:+ format_0d 8 n +:+ ".tar.lzo".

(** ** What a trace shows *)

(** The positions of the events that satisfy [p], in order. *)
Definition positions (p : event -> bool) (t : list event) : list nat :=
  (fix go (i : nat) (t : list event) : list nat :=
     match t with
     | [] => []
     | ev :: t' => if p ev then i :: go (S i) t' else go (S i) t'
     end) 0%nat t.

Definition is_start (ev : event) : bool :=
  match ev with EvThreadStart => true | _ => false end.
Definition is_push (ev : event) : bool :=
  match ev with EvPush _ => true | _ => false end.
Definition is_primary (ev : event) : bool :=
  match ev with EvPrimary _ => true | _ => false end.
Definition is_join (ev : event) : bool :=
  match ev with EvJoin => true | _ => false end.
Definition is_put (ev : event) : bool :=
  match ev with EvPut _ _ _ => true | _ => false end.
Definition is_lzop_put (ev : event) : bool :=
  match ev with EvLzopPut _ _ => true | _ => false end.
Definition is_log (ev : event) : bool :=
  match ev with EvLog _ _ _ _ => true | _ => false end.

(** [sub] occurs in [s]. *)
Definition includes (s sub : string) : Prop :=
  exists before after : string, s = before +:+ sub +:+ after.

(** The success flag the helper thread ends with for a push outcome. *)
Definition secondary_ok (o : outcome Z) : bool :=
  match o with
  | Returns rc => bool_decide (rc = 0%Z) || bool_decide (rc = EEXIST)
  | Raises _ => false
  end.

(** The primary upload raised nothing. *)
Definition primary_ok {A} (o : outcome A) : bool :=
  match o with Returns _ => true | Raises _ => false end.

(** The failure is one the classifier screens for. *)
Definition retryable (exc_tup : raised) : bool :=
  issubclass (r_typ exc_tup) socket_error
  || (issubclass (r_typ exc_tup) S3ResponseError
      && bool_decide (exc_error_code (r_value exc_tup) = Some "RequestTimeTooSkewed")).

(** The except clause of [WalDualUploader.__call__] deals with the
    outcome: the primary returned, or raised within [Exception]. *)
Definition caught_or_returned {A} (o : outcome A) : bool :=
  match o with
  | Returns _ => true
  | Raises e => issubclass (r_typ e) Exception
  end.

(** The outcome of the primary upload inside a call started in [w]. *)
Definition primary_outcome (blobstore_upload : WalSegment -> M (option rate))
    (upload_to_nfs : WalSegment -> outcome Z) (sched : schedule)
    (segment : WalSegment) (w : world) : outcome (option rate) :=
  fst (blobstore_upload segment
         (snd ((emit EvThreadStart ;;
                run_when sched PushBeforePrimary
                  (WalNfsThread___init__ segment upload_to_nfs) ;;
                emit (EvPrimary (seg_path segment))) w))).

(** A trace in which the thread is started once, the primary upload is
    entered once after that start and makes its transfer once, the push
    runs once between start and join, and the join comes once, after the
    transfer. *)
Definition both_attempted_then_joined (t : list event) : Prop :=
  exists s u a p j : nat,
    positions is_start t = [s] /\ positions is_primary t = [u] /\
    positions is_lzop_put t = [a] /\ positions is_push t = [p] /\
    positions is_join t = [j] /\
    (s < u < a)%nat /\ (s < p < j)%nat /\ (a < j)%nat.

(** A PUT event that found the byte source at offset 0, holding [data]. *)
Definition put_from_start (data : list Byte.byte) (ev : event) : Prop :=
  match ev with
  | EvPut _ pos offered => pos = 0%nat /\ offered = data
  | _ => True
  end.

(** The world [w] with the events [evs] added to its trace. *)
Definition log_to (w : world) (evs : list event) : world :=
  {| w_trace := w_trace w ++ evs; w_tf := w_tf w; w_puts := w_puts w;
     w_clock := w_clock w |}.

Definition is_returns {A} (o : outcome A) : bool :=
  match o with Returns _ => true | Raises _ => false end.

(** A log record at the error level. *)
Definition is_error_log (ev : event) : bool :=
  match ev with EvLog ERROR _ _ _ => true | _ => false end.

(** ** Sample inputs for concrete runs *)

Definition sample_uploader : WalUploader :=
  {| layout_prefix := "s3://bucket/wal"; layout_path_prefix := "wal";
     wu_creds := "creds"; wu_gpg_key_id := None |}.

Definition sample_segment : WalSegment :=
  {| seg_name := "0001"; seg_path := "pg_xlog/0001" |}.

(** A transfer that raises an exception of class [cls]. *)
Definition failing_put (cls : pyclass)
  : string -> string -> string -> option string -> outcome rate :=
  fun _ _ _ _ => Raises (new_exception cls "broken pipe" "do_lzop_put").

(** A transfer that is measured at 2048.0 KiB/s. *)
Definition working_put
  : string -> string -> string -> option string -> outcome rate :=
  fun _ _ _ _ => Returns "2048.0".

Definition sample_partition_uploader : PartitionUploader :=
  {| pu_creds := "creds"; backup_prefix := "s3://bucket/backup";
     rate_limit := None; gpg_key := None |}.

(** A volume whose pipeline leaves three bytes in the spill file. *)
Definition sample_partition : TarPartition :=
  {| tp_name := 3; tp_tarfile_write := Returns [Byte.x01; Byte.x02; Byte.x03] |}.

(** A volume whose pipeline raises. *)
Definition broken_partition : TarPartition :=
  {| tp_name := 3;
     tp_tarfile_write := Raises (new_exception IOError "lzop died" "tarfile_write") |}.

(** A store that takes every PUT whole. *)
Definition accepting_store : blobstore :=
  fun _ => {| pb_reads := 8; pb_elapsed := 1; pb_raises := None |}.

(** A seek of the spill file. *)
Definition is_seek (ev : event) : bool :=
  match ev with EvSeek _ => true | _ => false end.

(** The events of one PUT attempt on a file holding [data]: the seek to
    offset 0, at once the PUT, which finds the file at offset 0 with all
    of [data] in front of it, and then what follows the attempt ([tail]:
    the classifier's record and the backoff, if any). *)
Definition attempt_events (url : string) (data : list Byte.byte)
    (tail : list event) : list event :=
  EvSeek 0 :: EvPut url 0 data :: tail.

(** An event that is neither a seek nor a PUT. *)
Definition between_attempts (ev : event) : Prop :=
  is_seek ev = false /\ is_put ev = false.

(** * Properties *)

(** ** Python primitives *)

#[local] Arguments String.append !_ _ / : simpl nomatch.

Lemma append_empty_r (s : string) : s +:+ "" = s.
Proof. induction s as [|a s IH]; simpl; congruence. Qed.

Lemma append_assoc (s t u : string) : (s +:+ t) +:+ u = s +:+ t +:+ u.
Proof. induction s as [|a s IH]; simpl; congruence. Qed.

Lemma length_append (s t : string) :
  String.length (s +:+ t) = (String.length s + String.length t)%nat.
Proof. induction s as [|a s IH]; simpl; congruence. Qed.

Lemma length_replicate_char (n : nat) (c : ascii) :
  String.length (replicate_char n c) = n.
Proof. induction n as [|n IH]; simpl; congruence. Qed.

Lemma replicate_char_snoc (n : nat) (c : ascii) :
  replicate_char (S n) c = replicate_char n c +:+ String c "".
Proof. induction n as [|n IH]; [done|]. simpl in *. congruence. Qed.

(** [rstrip] only removes copies of [c] from the end. *)
Lemma rstrip_decompose (c : ascii) (s : string) :
  exists k : nat, s = rstrip c s +:+ replicate_char k c.
Proof.
  induction s as [|a s [k IH]]; [by exists 0%nat|].
  simpl. destruct (rstrip c s) as [|b r] eqn:E.
  - simpl in IH. case_bool_decide as Hac.
    + exists (S k). simpl. by rewrite Hac, <- IH.
    + exists k. simpl. by rewrite <- IH.
  - exists k. simpl in *. by rewrite <- IH.
Qed.

(** What [rstrip] leaves does not end with [c]. *)
Lemma rstrip_no_trailing (c : ascii) (s t : string) :
  rstrip c s <> t +:+ String c "".
Proof.
  revert t. induction s as [|a s IH]; intros t; simpl.
  - by destruct t.
  - destruct (rstrip c s) as [|b r] eqn:E.
    + case_bool_decide as Hac.
      * by destruct t.
      * destruct t as [|x [|y t]]; simpl; congruence.
    + destruct t as [|x t]; simpl; [congruence|].
      intros [= -> Hr]. by apply (IH t).
Qed.

(** One more trailing [c] changes nothing. *)
Lemma rstrip_snoc (c : ascii) (s : string) :
  rstrip c (s +:+ String c "") = rstrip c s.
Proof.
  induction s as [|a s IH]; simpl.
  - by rewrite bool_decide_eq_true_2.
  - by rewrite IH.
Qed.

Lemma rstrip_replicate (c : ascii) (s : string) (k : nat) :
  rstrip c (s +:+ replicate_char k c) = rstrip c s.
Proof.
  revert s. induction k as [|k IH]; intros s.
  - simpl. by rewrite append_empty_r.
  - rewrite replicate_char_snoc, <- append_assoc, rstrip_snoc. apply IH.
Qed.

(** A string that does not end with [c] is left as it is. *)
Lemma rstrip_id (c : ascii) (s : string) :
  (forall t, s <> t +:+ String c "") -> rstrip c s = s.
Proof.
  intros Hs. destruct (rstrip_decompose c s) as [[|k] Hk].
  - rewrite append_empty_r in Hk. congruence.
  - exfalso. apply (Hs (rstrip c s +:+ replicate_char k c)).
    rewrite Hk at 1. by rewrite replicate_char_snoc, append_assoc.
Qed.

(** On a string with at most one trailing slash, stripping one slash and
    stripping them all agree. *)
Lemma strip_one_is_rstrip (s : string) :
  (forall t, s <> t +:+ "//") -> strip_one_trailing_slash s = rstrip "/" s.
Proof.
  induction s as [|a s IH]; intros Hs; [done|].
  destruct s as [|b s].
  - simpl. by case_bool_decide.
  - change (strip_one_trailing_slash (String a (String b s)))
      with (String a (strip_one_trailing_slash (String b s))).
    rewrite IH.
    + change (rstrip "/" (String a (String b s)))
        with (match rstrip "/" (String b s) with
              | EmptyString =>
                  if bool_decide (a = "/"%char) then EmptyString
                  else String a EmptyString
              | String x r => String a (String x r)
              end).
      destruct (rstrip "/" (String b s)) as [|x r] eqn:E; [|done].
      case_bool_decide as Ha; [|done].
      exfalso. destruct (rstrip_decompose "/" (String b s)) as [k Hk].
      rewrite E in Hk. simpl in Hk. destruct k as [|k]; [discriminate|].
      apply (Hs (replicate_char k "/")).
      rewrite Hk, Ha.
      change (String "/" (replicate_char (S k) "/"))
        with (replicate_char (S (S k)) "/").
      rewrite !replicate_char_snoc. by rewrite append_assoc.
    + intros t Ht. apply (Hs (String a t)). simpl. by rewrite Ht.
Qed.

(** *** Decimal text *)

(** A number below [10 ^ k] takes at most [k] digits. *)
Lemma pretty_N_go_length (k : nat) (x : N) (s : string) :
  (x < 10 ^ N.of_nat k)%N ->
  (String.length (pretty_N_go x s) <= k + String.length s)%nat.
Proof.
  revert x s. induction k as [|k IH]; intros x s Hx.
  - assert (x = 0%N) as -> by (simpl in Hx; lia).
    rewrite pretty_N_go_0. lia.
  - destruct (decide (x = 0%N)) as [->|Hne].
    + rewrite pretty_N_go_0. lia.
    + rewrite pretty_N_go_step by lia.
      etrans; [apply IH|simpl; lia].
      rewrite Nat2N.inj_succ, N.pow_succ_r' in Hx.
      apply N.Div0.div_lt_upper_bound; lia.
Qed.

Lemma pretty_N_length (k : nat) (x : N) :
  (0 < k)%nat -> (x < 10 ^ N.of_nat k)%N ->
  (String.length (pretty x) <= k)%nat.
Proof.
  intros Hk Hx. unfold pretty, pretty_N. case_decide.
  - simpl. lia.
  - pose proof (pretty_N_go_length k x "" Hx) as H'. simpl in H'. lia.
Qed.

Lemma digit_value_pretty_N_char (d : N) :
  (d < 10)%N -> digit_value (pretty_N_char d) = Some d.
Proof.
  intros Hd.
  assert (d = 0 \/ d = 1 \/ d = 2 \/ d = 3 \/ d = 4 \/ d = 5 \/ d = 6
          \/ d = 7 \/ d = 8 \/ d = 9)%N as Hcases by lia.
  repeat destruct Hcases as [->|Hcases]; try subst d; reflexivity.
Qed.

(** Reading back the digits that [pretty_N_go] puts in front of [s]. *)
Lemma parse_pretty_N_go (x : N) (s : string) :
  parse_digits 0 (pretty_N_go x s) = parse_digits x s.
Proof.
  revert s. induction (N.lt_wf_0 x) as [x _ IH]; intros s.
  destruct (decide (x = 0%N)) as [->|Hne].
  - by rewrite pretty_N_go_0.
  - rewrite pretty_N_go_step by lia.
    rewrite IH by (apply N.div_lt; lia).
    simpl. rewrite digit_value_pretty_N_char by (apply N.mod_lt; lia).
    f_equal. rewrite (N.div_mod x 10) at 3 by lia. lia.
Qed.

Lemma parse_pretty_N (x : N) : parse_digits 0 (pretty x) = Some x.
Proof.
  unfold pretty, pretty_N. case_decide as Hx.
  - by subst x.
  - by rewrite parse_pretty_N_go.
Qed.

(** Leading zeros do not change the number read. *)
Lemma parse_leading_zeros (k : nat) (s : string) :
  parse_digits 0 (replicate_char k "0" +:+ s) = parse_digits 0 s.
Proof. induction k as [|k IH]; [done|]. simpl. exact IH. Qed.

Lemma str_int_nonneg (n : Z) : (0 <= n)%Z -> str_int n = pretty (Z.to_N n).
Proof. intros Hn. by destruct n as [|p|p]; [| |lia]. Qed.

(** The field [{n:08d}] of a number of at most eight digits. *)
Lemma format_08d_spec (n : Z) :
  (0 <= n <= 99999999)%Z ->
  format_0d 8 n = replicate_char (8 - String.length (str_int n)) "0" +:+ str_int n
  /\ String.length (format_0d 8 n) = 8%nat
  /\ parse_digits 0 (format_0d 8 n) = Some (Z.to_N n).
Proof.
  intros Hn. unfold format_0d, zero_pad.
  rewrite bool_decide_eq_false_2 by lia.
  rewrite <- str_int_nonneg by lia.
  assert (String.length (str_int n) <= 8)%nat as Hlen.
  { rewrite str_int_nonneg by lia. apply pretty_N_length; [lia|].
    change (10 ^ N.of_nat 8)%N with 100000000%N. lia. }
  split_and!; [done| |].
  - rewrite length_append, length_replicate_char. lia.
  - rewrite parse_leading_zeros, str_int_nonneg by lia. apply parse_pretty_N.
Qed.

(** ** Worlds and traces *)

Lemma log_to_nil (w : world) : log_to w [] = w.
Proof. destruct w. unfold log_to. simpl. by rewrite app_nil_r. Qed.

Lemma log_to_log_to (w : world) (a b : list event) :
  log_to (log_to w a) b = log_to w (a ++ b).
Proof. unfold log_to. simpl. by rewrite app_assoc. Qed.

Lemma emit_log_to (ev : event) (w : world) : emit ev w = (Returns tt, log_to w [ev]).
Proof. reflexivity. Qed.

(** Runs the monadic steps of a goal as far as they are determined, with
    the events gathered by [log_to]. *)
Ltac run_M :=
  repeat first
    [ rewrite emit_log_to
    | rewrite log_to_log_to
    | progress (cbv beta iota zeta)
    | progress (unfold mbind, M_bind, bind, mret, M_ret, ret, lift, raise,
                  logger_info, logger_error) ].

(** ** WalUploader: remote keys *)

(** On a prefix with at most one trailing slash the key is the one the
    specification words. *)
Lemma wal_url_one_slash (CURRENT_VERSION prefix name : string) :
  (forall t, prefix <> t +:+ "//") ->
  wal_url CURRENT_VERSION prefix name = spec_wal_url CURRENT_VERSION prefix name.
Proof.
  intros H. unfold wal_url, spec_wal_url. by rewrite strip_one_is_rstrip.
Qed.

(** C6, as stated, fails: of two trailing slashes the code removes both,
    where the claim has one of them stay. *)
Lemma wal_url_two_slashes_differs :
  wal_url "005" "s3://bucket/wal//" "000000010000000000000001"
  <> spec_wal_url "005" "s3://bucket/wal//" "000000010000000000000001".
Proof. vm_compute. discriminate. Qed.

(** C6 (amended): for every segment name and every configured prefix, the
    key is [p/wal_{CURRENT_VERSION}/{name}.lzo] where [p] is the prefix
    without any of its trailing slashes: the prefix is [p] followed by
    slashes only, and [p] does not end with a slash.  A prefix and the same
    prefix with one more slash at its end give the same key. *)
Theorem wal_url_strips_every_trailing_slash (CURRENT_VERSION prefix name : string) :
  exists (p : string) (k : nat),
    prefix = p +:+ replicate_char k "/"
    /\ (forall t, p <> t +:+ "/")
    /\ wal_url CURRENT_VERSION prefix name
       = p +:+ "/wal_" +:+ CURRENT_VERSION +:+ "/" +:+ name +:+ ".lzo"
    /\ wal_url CURRENT_VERSION (prefix +:+ "/") name
       = wal_url CURRENT_VERSION prefix name.
Proof.
  destruct (rstrip_decompose "/" prefix) as [k Hk].
  exists (rstrip "/" prefix), k. split_and!.
  - exact Hk.
  - apply rstrip_no_trailing.
  - reflexivity.
  - unfold wal_url. by rewrite rstrip_snoc.
Qed.

(** ** PartitionUploader: remote keys *)

Lemma partition_url_no_slash (backup_prefix : string) (n : Z) :
  (forall t, backup_prefix <> t +:+ "/") ->
  partition_url backup_prefix n = spec_partition_url backup_prefix n.
Proof.
  intros H. unfold partition_url, spec_partition_url. by rewrite rstrip_id.
Qed.

Example partition_url_3 :
  partition_url "s3://bucket/backup" 3
  = "s3://bucket/backup/tar_partitions/part_00000003.tar.lzo".
Proof. vm_compute. reflexivity. Qed.

(** C7, as stated, fails on a prefix that ends with a slash: the key has
    the prefix without it. *)
Lemma partition_url_trailing_slash_differs :
  partition_url "s3://bucket/backup/" 3
  <> spec_partition_url "s3://bucket/backup/" 3.
Proof. vm_compute. discriminate. Qed.

(** C7 (amended): for every volume whose ordinal [n] is in [0, 99999999],
    the key is [p/tar_partitions/part_{n:08d}.tar.lzo] where [p] is the
    backup prefix without its trailing slashes, and the numeric field is
    [n] in decimal, padded with zeros on the left to exactly 8 characters. *)
Theorem partition_url_zero_padded (backup_prefix : string) (n : Z) :
  (0 <= n <= 99999999)%Z ->
  exists (p : string) (k : nat) (field : string),
    backup_prefix = p +:+ replicate_char k "/"
    /\ (forall t, p <> t +:+ "/")
    /\ partition_url backup_prefix n
       = p +:+ "/tar_partitions/part_" +:+ field +:+ ".tar.lzo"
    /\ String.length field = 8%nat
    /\ field = replicate_char (8 - String.length (str_int n)) "0" +:+ str_int n
    /\ parse_digits 0 field = Some (Z.to_N n).
Proof.
  intros Hn. destruct (rstrip_decompose "/" backup_prefix) as [k Hk].
  destruct (format_08d_spec n Hn) as (Hpad & Hlen & Hparse).
  exists (rstrip "/" backup_prefix), k, (format_0d 8 n). split_and!; try done.
  apply rstrip_no_trailing.
Qed.

Lemma partition_url_zero_padded_witness :
  (0 <= 3 <= 99999999)%Z /\
  exists (p : string) (k : nat) (field : string),
    "s3://bucket/backup/" = p +:+ replicate_char k "/"
    /\ (forall t, p <> t +:+ "/")
    /\ partition_url "s3://bucket/backup/" 3
       = p +:+ "/tar_partitions/part_" +:+ field +:+ ".tar.lzo"
    /\ String.length field = 8%nat
    /\ field = replicate_char (8 - String.length (str_int 3)) "0" +:+ str_int 3
    /\ parse_digits 0 field = Some (Z.to_N 3).
Proof.
  split; [lia|]. apply (partition_url_zero_padded "s3://bucket/backup/" 3). lia.
Defined.

(** ** WalUploader: what the upload gives back *)

(** C9, as stated, fails: with a transfer measured at 2048.0 KiB/s the
    upload gives its caller None, not that rate. *)
Lemma upload_to_blobstore_does_not_return_rate :
  fst (upload_to_blobstore "005" (fun _ _ _ _ => Returns "2048.0")
         {| layout_prefix := "s3://bucket/wal"; layout_path_prefix := "wal";
            wu_creds := "creds"; wu_gpg_key_id := None |}
         {| seg_name := "000000010000000000000001";
            seg_path := "pg_xlog/000000010000000000000001" |}
         world0)
  <> Returns (Some "2048.0").
Proof. vm_compute. discriminate. Qed.

(** C9 (amended): for every segment whose transfer ends with a measured
    rate, the upload logs the begin event, makes the transfer once, logs
    the complete event, whose detail and whose [rate] tag hold that rate,
    and gives its caller None. *)
Theorem upload_to_blobstore_logs_rate (CURRENT_VERSION : string)
    (do_lzop_put : string -> string -> string -> option string -> outcome rate)
    (self : WalUploader) (segment : WalSegment) (kib_per_second : rate)
    (w : world) :
  do_lzop_put (wu_creds self)
    (wal_url CURRENT_VERSION (layout_prefix self) (seg_name segment))
    (seg_path segment) (wu_gpg_key_id self) = Returns kib_per_second ->
  exists (url begin_detail complete_detail : string),
    url = wal_url CURRENT_VERSION (layout_prefix self) (seg_name segment)
    /\ includes complete_detail kib_per_second
    /\ upload_to_blobstore CURRENT_VERSION do_lzop_put self segment w
       = (Returns None,
          log_to w
            [EvLog INFO "begin archiving a file" begin_detail
               [("action", "push-wal"); ("key", url);
                ("seg", seg_name segment);
                ("prefix", layout_path_prefix self); ("state", "begin")];
             EvLzopPut url (seg_path segment);
             EvLog INFO "completed archiving to a file " complete_detail
               [("action", "push-wal"); ("key", url);
                ("rate", kib_per_second); ("seg", seg_name segment);
                ("prefix", layout_path_prefix self);
                ("state", "complete")]]).
Proof.
  intros Hput. eexists _, _, _. split_and!; [reflexivity| |].
  2: { unfold upload_to_blobstore. run_M. rewrite Hput. run_M. reflexivity. }
  exists ("Archiving to " +:+ dq
            +:+ wal_url CURRENT_VERSION (layout_prefix self) (seg_name segment)
            +:+ dq +:+ " complete at "), "KiB/s. ".
  by rewrite !append_assoc.
Qed.

Lemma upload_to_blobstore_logs_rate_witness :
  (fun _ _ _ _ => Returns "2048.0") "creds"
    (wal_url "005" "s3://bucket/wal" "0001") "pg_xlog/0001" (@None string)
  = Returns "2048.0"
  /\ exists (url begin_detail complete_detail : string),
    url = wal_url "005" "s3://bucket/wal" "0001"
    /\ includes complete_detail "2048.0"
    /\ upload_to_blobstore "005" (fun _ _ _ _ => Returns "2048.0")
         {| layout_prefix := "s3://bucket/wal"; layout_path_prefix := "wal";
            wu_creds := "creds"; wu_gpg_key_id := None |}
         {| seg_name := "0001"; seg_path := "pg_xlog/0001" |} world0
       = (Returns None,
          log_to world0
            [EvLog INFO "begin archiving a file" begin_detail
               [("action", "push-wal"); ("key", url); ("seg", "0001");
                ("prefix", "wal"); ("state", "begin")];
             EvLzopPut url "pg_xlog/0001";
             EvLog INFO "completed archiving to a file " complete_detail
               [("action", "push-wal"); ("key", url); ("rate", "2048.0");
                ("seg", "0001"); ("prefix", "wal"); ("state", "complete")]]).
Proof.
  split; [reflexivity|].
  apply (upload_to_blobstore_logs_rate "005" (fun _ _ _ _ => Returns "2048.0")
           {| layout_prefix := "s3://bucket/wal"; layout_path_prefix := "wal";
              wu_creds := "creds"; wu_gpg_key_id := None |}
           {| seg_name := "0001"; seg_path := "pg_xlog/0001" |} "2048.0" world0).
  reflexivity.
Defined.

(** ** WalUploader: the callable interface *)

(** The name the body of [__call__] uses is bound nowhere in its scope. *)
Lemma upload_to_blobstore_unbound :
  resolve_name ["self"; "segment"] module_globals python_builtins
    "upload_to_blobstore" = Unbound.
Proof. vm_compute. reflexivity. Qed.

(** A name the module does bind is found. *)
Example do_lzop_put_bound :
  resolve_name ["self"; "segment"] module_globals python_builtins "do_lzop_put"
  = Global (ObjFunction "wal_e.worker.worker_util.do_lzop_put").
Proof. vm_compute. reflexivity. Qed.

(** C10: for every segment, calling a WalUploader raises NameError for
    the name [upload_to_blobstore] and leaves the world as it was: no key
    is built, nothing is logged and no transfer is made, whatever calling
    any other object would have done. *)
Theorem WalUploader_call_raises_NameError
    (call_object : pyobj -> WalSegment -> M (option rate))
    (call_local : string -> WalSegment -> M (option rate))
    (self : WalUploader) (segment : WalSegment) (w : world) :
  exists e : raised,
    WalUploader___call__ call_object call_local self segment w = (Raises e, w)
    /\ r_typ e = NameError
    /\ exc_type (r_value e) = NameError
    /\ includes (exc_str (r_value e)) "upload_to_blobstore".
Proof.
  unfold WalUploader___call__. rewrite upload_to_blobstore_unbound.
  eexists. split_and!; [reflexivity..|].
  by exists "global name '", "' is not defined".
Qed.

(** ** WalDualUploader *)

(** What the helper thread does when it runs: one push, and the flag set
    when (and only when) the push returned 0 or EEXIST. *)
Lemma thread_run_log_to (thr : WalNfsThread) (w : world) :
  WalNfsThread_run thr w
  = (Returns {| thr_segment := thr_segment thr;
                thr_push_function := thr_push_function thr;
                thr_success :=
                  thr_success thr
                  || secondary_ok (thr_push_function thr (thr_segment thr)) |},
     log_to w [EvPush (seg_path (thr_segment thr))]).
Proof.
  unfold WalNfsThread_run. run_M.
  destruct thr as [seg push ok]; simpl.
  destruct (push seg) as [rc|e]; simpl.
  - destruct (bool_decide (rc = 0%Z) || bool_decide (rc = EEXIST)); run_M.
    + by rewrite orb_true_r.
    + by rewrite orb_false_r.
  - run_M. by rewrite orb_false_r.
Qed.

Lemma secondary_ok_spec (o : outcome Z) :
  secondary_ok o = true
  <-> exists rc : Z, o = Returns rc /\ (rc = 0 \/ rc = EEXIST)%Z.
Proof.
  destruct o as [rc|e]; simpl.
  - rewrite orb_true_iff, !bool_decide_eq_true. split.
    + intros H. by exists rc.
    + by intros (rc' & [= <-] & H).
  - split; [done|]. by intros (rc & ? & _).
Qed.

Lemma primary_ok_spec {A} (o : outcome A) :
  primary_ok o = true <-> exists a : A, o = Returns a.
Proof.
  destruct o as [a|e]; simpl; split; try done.
  - by exists a.
  - by intros (a & ?).
Qed.

(** The outcome of a call, from the outcomes of its two uploads. *)
Lemma dual_call_outcome (blobstore_upload : WalSegment -> M (option rate))
    (upload_to_nfs : WalSegment -> outcome Z) (sched : schedule)
    (segment : WalSegment) (w : world) :
  fst (WalDualUploader___call__ blobstore_upload upload_to_nfs sched segment w) =
    match primary_outcome blobstore_upload upload_to_nfs sched segment w with
    | Returns _ =>
        if secondary_ok (upload_to_nfs segment) then Returns segment
        else Raises (raise_instance
                       {| exc_type := Exception;
                          exc_str := gluster_error_msg segment;
                          exc_error_code := None |}
                       "WalDualUploader.__call__")
    | Raises e =>
        if issubclass (r_typ e) Exception
        then Raises (raise_instance (r_value e) "WalDualUploader.__call__")
        else Raises e
    end.
Proof.
  unfold WalDualUploader___call__, primary_outcome, try_except.
  destruct sched; unfold run_when; run_M; rewrite ?thread_run_log_to; run_M;
    simpl; destruct (blobstore_upload segment _) as [[a|e] w1]; simpl;
    try destruct (issubclass (r_typ e) Exception); simpl;
    rewrite ?thread_run_log_to; simpl;
    destruct (secondary_ok (upload_to_nfs segment)); simpl; reflexivity.
Qed.

(** C1: for every segment, the call returns the segment if and only if the
    primary upload raised nothing and the push function returned 0 or
    EEXIST; whenever that fails (any other return value of the push, an
    exception of the push, or an exception of the primary) the call raises. *)
Theorem dual_upload_succeeds_iff_both_succeed
    (blobstore_upload : WalSegment -> M (option rate))
    (upload_to_nfs : WalSegment -> outcome Z) (sched : schedule)
    (segment : WalSegment) (w : world) :
  let result :=
    fst (WalDualUploader___call__ blobstore_upload upload_to_nfs sched segment w) in
  let primary_raised_nothing :=
    exists v, primary_outcome blobstore_upload upload_to_nfs sched segment w
              = Returns v in
  let push_returned_0_or_EEXIST :=
    exists rc : Z, upload_to_nfs segment = Returns rc /\ (rc = 0 \/ rc = EEXIST)%Z in
  (result = Returns segment
   <-> primary_raised_nothing /\ push_returned_0_or_EEXIST)
  /\ (~ (primary_raised_nothing /\ push_returned_0_or_EEXIST)
      -> exists e, result = Raises e).
Proof.
  cbv zeta. rewrite dual_call_outcome, <- secondary_ok_spec.
  destruct (primary_outcome _ _ _ _ _) as [v|e];
    [|destruct (issubclass (r_typ e) Exception)];
    destruct (secondary_ok (upload_to_nfs segment)); split.
  all: try (split; [done|]; intros [[? ?] ?]; done).
  all: try (intros _; eexists; reflexivity).
  - split; [intros _; split; [by exists v|done] | done].
  - intros []. split; [by exists v|done].
Qed.

(** C2: for every segment, when the secondary upload fails the call
    raises.  If the primary raised too, the exception raised is the
    primary's exception instance; if the primary raised nothing, it is a
    new [Exception] whose text names the failed transfer to the secondary
    destination. *)
Theorem dual_upload_raises_on_secondary_failure
    (blobstore_upload : WalSegment -> M (option rate))
    (upload_to_nfs : WalSegment -> outcome Z) (sched : schedule)
    (segment : WalSegment) (w : world) :
  secondary_ok (upload_to_nfs segment) = false ->
  exists e : raised,
    fst (WalDualUploader___call__ blobstore_upload upload_to_nfs sched segment w)
    = Raises e
    /\ match primary_outcome blobstore_upload upload_to_nfs sched segment w with
       | Raises primary => r_value e = r_value primary
       | Returns _ =>
           r_typ e = Exception
           /\ r_value e = {| exc_type := Exception;
                             exc_str := "failed to upload " +:+ seg_path segment
                                          +:+ " to gluster";
                             exc_error_code := None |}
       end.
Proof.
  intros Hsec. rewrite dual_call_outcome, Hsec.
  destruct (primary_outcome _ _ _ _ _) as [v|e].
  - eexists. split; [reflexivity|]. by split.
  - destruct (issubclass (r_typ e) Exception); eexists; by split.
Qed.

Lemma dual_upload_raises_on_secondary_failure_witness :
  let segment := {| seg_name := "0001"; seg_path := "pg_xlog/0001" |} in
  secondary_ok (Returns 5%Z) = false
  /\ exists e : raised,
    fst (WalDualUploader___call__ (fun _ => mret None) (fun _ => Returns 5%Z)
           PushAfterPrimary segment world0)
    = Raises e
    /\ match primary_outcome (fun _ => mret None) (fun _ => Returns 5%Z)
               PushAfterPrimary segment world0 with
       | Raises primary => r_value e = r_value primary
       | Returns _ =>
           r_typ e = Exception
           /\ r_value e = {| exc_type := Exception;
                             exc_str := "failed to upload " +:+ seg_path segment
                                          +:+ " to gluster";
                             exc_error_code := None |}
       end.
Proof.
  intros segment. split; [reflexivity|].
  apply (dual_upload_raises_on_secondary_failure (fun _ => mret None)
           (fun _ => Returns 5%Z) PushAfterPrimary segment world0).
  reflexivity.
Defined.

(** *** Order of the two attempts and the join *)

(** C8, as stated, fails: a primary upload that raises KeyboardInterrupt,
    which the except clause does not catch, makes the call raise with no
    join, and with the push not yet made, in its trace. *)
Lemma dual_upload_KeyboardInterrupt_skips_join :
  let call :=
    WalDualUploader___call__
      (upload_to_blobstore "005"
         (fun _ _ _ _ => Raises (new_exception KeyboardInterrupt "" "do_lzop_put"))
         {| layout_prefix := "s3://bucket/wal"; layout_path_prefix := "wal";
            wu_creds := "creds"; wu_gpg_key_id := None |})
      (fun _ => Returns 0%Z) PushAfterPrimary
      {| seg_name := "0001"; seg_path := "pg_xlog/0001" |} world0 in
  is_returns (fst call) = false
  /\ positions is_join (w_trace (snd call)) = []
  /\ positions is_push (w_trace (snd call)) = []
  /\ ~ (exists new : list event,
          snd call = log_to world0 new /\ both_attempted_then_joined new).
Proof.
  cbv zeta. split_and!; [by vm_compute..|].
  intros (new & Hnew & (s & u & a & p & j & _ & _ & _ & _ & Hj & _)).
  apply (f_equal w_trace) in Hnew. simpl in Hnew. subst new.
  vm_compute in Hj. discriminate.
Qed.

(** C8 (amended): in every call whose primary upload returns or raises an
    exception within [Exception], whatever the push does and whenever the
    helper thread runs, the thread is started once and before the primary
    upload is entered, the primary upload makes its transfer once, the
    push is made once between the start and the join, the join is made
    once and after the transfer, and the call raises or returns only
    after the join: all of it is in the trace the call leaves. *)
Theorem dual_upload_joins_before_raising (CURRENT_VERSION : string)
    (do_lzop_put : string -> string -> string -> option string -> outcome rate)
    (self : WalUploader) (upload_to_nfs : WalSegment -> outcome Z)
    (sched : schedule) (segment : WalSegment) (w : world) :
  caught_or_returned
    (do_lzop_put (wu_creds self)
       (wal_url CURRENT_VERSION (layout_prefix self) (seg_name segment))
       (seg_path segment) (wu_gpg_key_id self)) = true ->
  exists new : list event,
    snd (WalDualUploader___call__
           (upload_to_blobstore CURRENT_VERSION do_lzop_put self)
           upload_to_nfs sched segment w) = log_to w new
    /\ both_attempted_then_joined new.
Proof.
  intros Hcaught.
  unfold WalDualUploader___call__, upload_to_blobstore, try_except.
  destruct sched; unfold run_when; run_M; rewrite ?thread_run_log_to; run_M.
  all: destruct (do_lzop_put _ _ _ _) as [r|e]; simpl in Hcaught; run_M;
    rewrite ?Hcaught; run_M; rewrite ?thread_run_log_to; run_M.
  all: unfold WalNfsThread___init__;
    cbn [thr_success thr_push_function thr_segment orb].
  all: destruct (secondary_ok (upload_to_nfs segment));
    rewrite ?bool_decide_eq_true_2, ?bool_decide_eq_false_2 by done; run_M.
  all: cbn [snd fst andb].
  all: eexists; (split; [reflexivity|]).
  all: unfold both_attempted_then_joined; eexists _, _, _, _, _.
  all: split_and!; try reflexivity; try lia.
Qed.

Lemma dual_upload_joins_before_raising_witness :
  caught_or_returned
    ((fun _ _ _ _ => Raises (new_exception IOError "broken pipe" "do_lzop_put"))
       "creds" (wal_url "005" "s3://bucket/wal" "0001") "pg_xlog/0001"
       (@None string) : outcome rate) = true
  /\ exists new : list event,
    snd (WalDualUploader___call__
           (upload_to_blobstore "005"
              (fun _ _ _ _ =>
                 Raises (new_exception IOError "broken pipe" "do_lzop_put"))
              {| layout_prefix := "s3://bucket/wal"; layout_path_prefix := "wal";
                 wu_creds := "creds"; wu_gpg_key_id := None |})
           (fun _ => Returns 0%Z) PushAfterPrimary
           {| seg_name := "0001"; seg_path := "pg_xlog/0001" |} world0)
    = log_to world0 new
    /\ both_attempted_then_joined new.
Proof.
  split; [reflexivity|].
  apply (dual_upload_joins_before_raising "005"
           (fun _ _ _ _ =>
              Raises (new_exception IOError "broken pipe" "do_lzop_put"))
           {| layout_prefix := "s3://bucket/wal"; layout_path_prefix := "wal";
              wu_creds := "creds"; wu_gpg_key_id := None |}
           (fun _ => Returns 0%Z) PushAfterPrimary
           {| seg_name := "0001"; seg_path := "pg_xlog/0001" |} world0).
  reflexivity.
Defined.

(** The run the specification's test describes: the primary fails at once,
    and both uploads are still attempted before the call raises the
    primary's exception. *)
Example dual_upload_primary_fails_at_once :
  WalDualUploader___call__
    (upload_to_blobstore "005"
       (fun _ _ _ _ => Raises (new_exception IOError "broken pipe" "do_lzop_put"))
       {| layout_prefix := "s3://bucket/wal"; layout_path_prefix := "wal";
          wu_creds := "creds"; wu_gpg_key_id := None |})
    (fun _ => Returns 0%Z) PushAfterPrimary
    {| seg_name := "0001"; seg_path := "pg_xlog/0001" |} world0
  = (Raises {| r_typ := IOError;
               r_value := {| exc_type := IOError; exc_str := "broken pipe";
                             exc_error_code := None |};
               r_tb := ["WalDualUploader.__call__"] |},
     log_to world0
       [EvThreadStart; EvPrimary "pg_xlog/0001";
        EvLog INFO "begin archiving a file"
          ("Uploading " +:+ dq +:+ "pg_xlog/0001" +:+ dq +:+ " to " +:+ dq
             +:+ "s3://bucket/wal/wal_005/0001.lzo" +:+ dq +:+ ".")
          [("action", "push-wal"); ("key", "s3://bucket/wal/wal_005/0001.lzo");
           ("seg", "0001"); ("prefix", "wal"); ("state", "begin")];
        EvLzopPut "s3://bucket/wal/wal_005/0001.lzo" "pg_xlog/0001";
        EvLog ERROR "failed to upload pg_xlog/0001 to blobstore" "" [];
        EvPush "pg_xlog/0001"; EvJoin;
        EvLog INFO "push result False for file pg_xlog/0001" "" []]).
Proof. vm_compute. reflexivity. Qed.

(** ** PartitionUploader: the retry classifier *)

Lemma classifier_fatal (tpart : TarPartition) (exc_tup : raised) (n : Z) (w : world) :
  retryable exc_tup = false ->
  log_volume_failures_on_error tpart exc_tup n w = (Raises exc_tup, w).
Proof.
  unfold retryable, log_volume_failures_on_error. intros H.
  apply orb_false_iff in H as [-> ->]. by destruct exc_tup.
Qed.



(** The record a clock skew leaves, in full. *)
Example classifier_logs_clock_skew :
  log_volume_failures_on_error {| tp_name := 3; tp_tarfile_write := Returns [] |}
    {| r_typ := S3ResponseError;
       r_value := {| exc_type := S3ResponseError;
                     exc_str := "S3ResponseError: 403 Forbidden";
                     exc_error_code := Some "RequestTimeTooSkewed" |};
       r_tb := ["uri_put_file"] |} 2 world0
  = (Returns tt,
     log_to world0
       [EvLog INFO "Retrying send because of a Request Skew time"
          "  There have been 2 attempts to send the volume 3 so far." []]).
Proof. vm_compute. reflexivity. Qed.

(** Any other error code of the provider is not screened for. *)
Example access_denied_is_fatal :
  retryable {| r_typ := S3ResponseError;
               r_value := {| exc_type := S3ResponseError;
                             exc_str := "S3ResponseError: 403 Forbidden";
                             exc_error_code := Some "AccessDenied" |};
               r_tb := ["uri_put_file"] |} = false.
Proof. vm_compute. reflexivity. Qed.

(** What the classifier adds to the world is log records, or nothing. *)
Lemma classifier_keeps_file (tpart : TarPartition) (exc_tup : raised) (n : Z)
    (w : world) :
  exists new : list event,
    snd (log_volume_failures_on_error tpart exc_tup n w) = log_to w new
    /\ Forall (fun ev => is_put ev = false) new.
Proof.
  unfold log_volume_failures_on_error.
  destruct (issubclass (r_typ exc_tup) socket_error);
    [|destruct (issubclass (r_typ exc_tup) S3ResponseError
               && bool_decide (exc_error_code (r_value exc_tup)
                               = Some "RequestTimeTooSkewed"))].
  1,2: eexists; split; [reflexivity|by repeat constructor].
  exists []. by rewrite log_to_nil.
Qed.

(** ** PartitionUploader: the retried PUT *)

(** One run of [put_file_helper]: the seek, then one PUT that finds the
    whole file in front of it. *)
Lemma put_file_helper_run (store : blobstore) (self : PartitionUploader)
    (url : string) (w : world) :
  let data := tf_data (w_tf w) in
  let b := store (w_puts w) in
  put_file_helper store self url w
  = (match pb_raises b with
     | None => Returns {| key_size := length (take (pb_reads b) data) |}
     | Some e => Raises e
     end,
     {| w_trace := w_trace w ++ [EvSeek 0; EvPut url 0 data];
        w_tf := {| tf_data := data;
                   tf_pos := length (take (pb_reads b) data) |};
        w_puts := S (w_puts w);
        w_clock := (w_clock w + pb_elapsed b)%Z |}).
Proof.
  cbv zeta. unfold put_file_helper, tf_seek, get_tf, set_tf, uri_put_file.
  unfold mbind, M_bind, bind, emit. simpl. rewrite <- app_assoc. simpl.
  by destruct (pb_raises (store (w_puts w))).
Qed.

(** Without the seek, a PUT gets what is left after the position. *)
Example put_without_seek_sends_remainder :
  uri_put_file (fun _ => {| pb_reads := 8; pb_elapsed := 1; pb_raises := None |})
    "creds" "url"
    {| w_trace := [];
       w_tf := {| tf_data := [Byte.x01; Byte.x02; Byte.x03]; tf_pos := 2 |};
       w_puts := 0; w_clock := 0 |}
  = (Returns {| key_size := 1 |},
     {| w_trace := [EvPut "url" 2 [Byte.x03]];
        w_tf := {| tf_data := [Byte.x01; Byte.x02; Byte.x03]; tf_pos := 3 |};
        w_puts := 1; w_clock := 1 |}).
Proof. vm_compute. reflexivity. Qed.

Lemma put_from_start_not_put (data : list Byte.byte) (ev : event) :
  is_put ev = false -> put_from_start data ev.
Proof. by destruct ev. Qed.

Lemma no_put_filter (t : list event) :
  Forall (fun ev => is_put ev = false) t ->
  filter (fun ev => is_put ev) t = [].
Proof.
  induction 1 as [|ev t Hev _ IH]; [done|].
  rewrite filter_cons_False; [done|]. rewrite Hev. intros H. exact H.
Qed.

Lemma retry_S {A} (fuel : nat) (proc : raised -> option Z -> M Z) (f : M A)
    (cxt : option Z) (w : world) :
  retry (S fuel) proc f cxt w
  = match f w with
    | (Returns a, w1) => (Some (Returns a), w1)
    | (Raises exc_tup, w1) =>
        match proc exc_tup cxt w1 with
        | (Raises e, w2) => (Some (Raises e), w2)
        | (Returns c, w2) => retry fuel proc f (Some c) (snd (emit EvBackoff w2))
        end
    end.
Proof. reflexivity. Qed.

Lemma retry_with_count_run (side_effect_func : raised -> Z -> M unit)
    (exc_tup : raised) (cxt : option Z) (w : world) :
  retry_with_count side_effect_func exc_tup cxt w
  = let n := match cxt with None => 1%Z | Some k => (k + 1)%Z end in
    match side_effect_func exc_tup n w with
    | (Returns _, w') => (Returns n, w')
    | (Raises e, w') => (Raises e, w')
    end.
Proof. reflexivity. Qed.

(** The invariant of the loop, from any attempt count and any world:
    every PUT of the run found the file at offset 0 with all its bytes,
    the file's bytes are unchanged, and the PUT events of the trace are
    all the attempts the store received. *)
Lemma retry_puts_from_start (store : blobstore) (self : PartitionUploader)
    (tpart : TarPartition) (url : string) (fuel : nat) (cxt : option Z)
    (w : world) :
  let w' := snd (retry fuel (retry_with_count (log_volume_failures_on_error tpart))
                   (put_file_helper store self url) cxt w) in
  exists new : list event,
    w_trace w' = w_trace w ++ new
    /\ Forall (put_from_start (tf_data (w_tf w))) new
    /\ tf_data (w_tf w') = tf_data (w_tf w)
    /\ w_puts w' = (w_puts w + length (filter (fun ev => is_put ev) new))%nat.
Proof.
  cbv zeta. revert cxt w. induction fuel as [|fuel IH]; intros cxt w.
  - exists []. simpl. rewrite app_nil_r. split_and!; try done; lia.
  - rewrite retry_S, put_file_helper_run. cbv zeta.
    set (w1 := {| w_trace := _ |}).
    destruct (pb_raises (store (w_puts w))) as [exc_tup|].
    + rewrite retry_with_count_run. cbv zeta.
      set (n := match cxt with Some k => _ | None => _ end).
      destruct (classifier_keeps_file tpart exc_tup n w1) as (logs & Hw & Hlogs).
      destruct (log_volume_failures_on_error tpart exc_tup n w1) as [[[]|e] w2];
        simpl in Hw; subst w2.
      * destruct (IH (Some n) (snd (emit EvBackoff (log_to w1 logs))))
          as (new & Htr & Hall & Hdata & Hputs).
        exists ([EvSeek 0; EvPut url 0 (tf_data (w_tf w))] ++ logs
                  ++ [EvBackoff] ++ new).
        split_and!.
        -- rewrite Htr. simpl. by rewrite <- !app_assoc.
        -- repeat first
             [apply Forall_app_2 | apply Forall_cons_2 | apply Forall_nil_2];
             try done.
           eapply Forall_impl; [exact Hlogs|]. apply put_from_start_not_put.
        -- rewrite Hdata. reflexivity.
        -- rewrite Hputs. rewrite !filter_app, (no_put_filter logs Hlogs).
           simpl. rewrite ?length_app. simpl. lia.
      * exists ([EvSeek 0; EvPut url 0 (tf_data (w_tf w))] ++ logs).
        split_and!.
        -- simpl. by rewrite <- !app_assoc.
        -- apply Forall_app_2; [by repeat constructor|].
           eapply Forall_impl; [exact Hlogs|]. apply put_from_start_not_put.
        -- reflexivity.
        -- rewrite filter_app, (no_put_filter logs Hlogs). simpl. lia.
    + exists [EvSeek 0; EvPut url 0 (tf_data (w_tf w))]. simpl.
      split_and!; [done| by repeat constructor |done|lia].
Qed.

(** A failure the classifier does not screen for ends the loop at the
    attempt that raised it, whatever the attempt count. *)
Lemma fatal_error_ends_retry_loop (store : blobstore) (self : PartitionUploader)
    (tpart : TarPartition) (url : string) (exc_tup : raised) (fuel : nat)
    (cxt : option Z) (w : world) :
  retryable exc_tup = false ->
  pb_raises (store (w_puts w)) = Some exc_tup ->
  exists w' : world,
    retry (S fuel) (retry_with_count (log_volume_failures_on_error tpart))
      (put_file_helper store self url) cxt w = (Some (Raises exc_tup), w')
    /\ w_puts w' = S (w_puts w)
    /\ w_trace w' = w_trace w ++ [EvSeek 0; EvPut url 0 (tf_data (w_tf w))].
Proof.
  intros Hfatal Hput.
  rewrite retry_S, put_file_helper_run. cbv zeta. rewrite Hput.
  rewrite retry_with_count_run. cbv zeta. rewrite classifier_fatal by done.
  eexists. split_and!; reflexivity.
Qed.

(** A failure the classifier screens for leads to one more attempt, with
    the attempt count moved on by one. *)
Lemma retryable_error_is_retried (store : blobstore) (self : PartitionUploader)
    (tpart : TarPartition) (url : string) (exc_tup : raised) (fuel : nat)
    (cxt : option Z) (w : world) :
  retryable exc_tup = true ->
  pb_raises (store (w_puts w)) = Some exc_tup ->
  exists (w1 : world) (n : Z),
    retry (S fuel) (retry_with_count (log_volume_failures_on_error tpart))
      (put_file_helper store self url) cxt w
    = retry fuel (retry_with_count (log_volume_failures_on_error tpart))
        (put_file_helper store self url) (Some n) w1
    /\ n = match cxt with None => 1%Z | Some k => (k + 1)%Z end
    /\ w_puts w1 = S (w_puts w).
Proof.
  intros Hretry Hput.
  rewrite retry_S, put_file_helper_run. cbv zeta. rewrite Hput.
  rewrite retry_with_count_run. cbv zeta.
  unfold retryable in Hretry. unfold log_volume_failures_on_error.
  destruct (issubclass (r_typ exc_tup) socket_error); simpl in Hretry;
    [|rewrite Hretry]; eexists _, _; split_and!; reflexivity.
Qed.

(** C4: a failure of the PUT that is neither a socket error nor a
    RequestTimeTooSkewed response makes the classifier raise the very
    triple it was given (type, value and traceback), and the retried PUT
    ends with that triple after the one attempt: one seek and one PUT, no
    log record, no backoff and no second attempt. *)
Theorem fatal_error_propagates_unchanged (store : blobstore)
    (self : PartitionUploader) (tpart : TarPartition) (url : string)
    (exc_tup : raised) (fuel : nat) (w : world) :
  retryable exc_tup = false ->
  pb_raises (store (w_puts w)) = Some exc_tup ->
  (forall (n : Z) (w0 : world),
     log_volume_failures_on_error tpart exc_tup n w0 = (Raises exc_tup, w0))
  /\ exists w' : world,
       retried_put_file_helper store (S fuel) self tpart url w
       = (Some (Raises exc_tup), w')
       /\ w_puts w' = S (w_puts w)
       /\ w_trace w' = w_trace w ++ [EvSeek 0; EvPut url 0 (tf_data (w_tf w))].
Proof.
  intros Hfatal Hput. split.
  - intros n w0. by apply classifier_fatal.
  - by apply fatal_error_ends_retry_loop.
Qed.

Lemma fatal_error_propagates_unchanged_witness :
  let store : blobstore :=
    fun _ => {| pb_reads := 1; pb_elapsed := 2;
                pb_raises := Some (new_exception ValueError "bad key"
                                     "uri_put_file") |} in
  let self := {| pu_creds := "creds"; backup_prefix := "s3://bucket/backup";
                 rate_limit := None; gpg_key := None |} in
  let tpart := {| tp_name := 3; tp_tarfile_write := Returns [] |} in
  let exc_tup := new_exception ValueError "bad key" "uri_put_file" in
  retryable exc_tup = false
  /\ pb_raises (store (w_puts world0)) = Some exc_tup
  /\ (forall (n : Z) (w0 : world),
        log_volume_failures_on_error tpart exc_tup n w0 = (Raises exc_tup, w0))
  /\ exists w' : world,
       retried_put_file_helper store 5 self tpart "url" world0
       = (Some (Raises exc_tup), w')
       /\ w_puts w' = S (w_puts world0)
       /\ w_trace w'
          = w_trace world0 ++ [EvSeek 0; EvPut "url" 0 (tf_data (w_tf world0))].
Proof.
  cbv zeta. split; [reflexivity|]. split; [reflexivity|].
  apply (fatal_error_propagates_unchanged
           (fun _ => {| pb_reads := 1; pb_elapsed := 2;
                        pb_raises := Some (new_exception ValueError "bad key"
                                             "uri_put_file") |})
           {| pu_creds := "creds"; backup_prefix := "s3://bucket/backup";
              rate_limit := None; gpg_key := None |}
           {| tp_name := 3; tp_tarfile_write := Returns [] |} "url"
           (new_exception ValueError "bad key" "uri_put_file") 4 world0);
    reflexivity.
Defined.

(** What the classifier adds to the world is log records only: no seek
    and no PUT. *)
Lemma classifier_logs_only (tpart : TarPartition) (exc_tup : raised) (n : Z)
    (w : world) :
  exists logs : list event,
    snd (log_volume_failures_on_error tpart exc_tup n w) = log_to w logs
    /\ Forall between_attempts logs.
Proof.
  unfold log_volume_failures_on_error.
  destruct (issubclass (r_typ exc_tup) socket_error);
    [|destruct (issubclass (r_typ exc_tup) S3ResponseError
               && bool_decide (exc_error_code (r_value exc_tup)
                               = Some "RequestTimeTooSkewed"))].
  1,2: eexists; split; [reflexivity|by repeat constructor].
  exists []. by rewrite log_to_nil.
Qed.

(** The shape of a run of the loop, from any attempt count and any world:
    its trace is one block per attempt, each block the seek to 0, the PUT
    from offset 0 of the whole file, and then records and backoff only. *)
Lemma retry_attempts (store : blobstore) (self : PartitionUploader)
    (tpart : TarPartition) (url : string) (fuel : nat) (cxt : option Z)
    (w : world) :
  let w' := snd (retry fuel (retry_with_count (log_volume_failures_on_error tpart))
                   (put_file_helper store self url) cxt w) in
  exists tails : list (list event),
    w_trace w'
    = w_trace w ++ concat (map (attempt_events url (tf_data (w_tf w))) tails)
    /\ Forall (Forall between_attempts) tails
    /\ w_puts w' = (w_puts w + length tails)%nat
    /\ (Nat.min 1 fuel <= length tails <= fuel)%nat.
Proof.
  cbv zeta. revert cxt w. induction fuel as [|fuel IH]; intros cxt w.
  - exists []. simpl. rewrite app_nil_r. split_and!; try done; lia.
  - rewrite retry_S, put_file_helper_run. cbv zeta.
    set (w1 := {| w_trace := _ |}).
    destruct (pb_raises (store (w_puts w))) as [exc_tup|].
    + rewrite retry_with_count_run. cbv zeta.
      set (n := match cxt with Some k => _ | None => _ end).
      destruct (classifier_logs_only tpart exc_tup n w1) as (logs & Hw & Hlogs).
      destruct (log_volume_failures_on_error tpart exc_tup n w1) as [[[]|e] w2];
        simpl in Hw; subst w2.
      * destruct (IH (Some n) (snd (emit EvBackoff (log_to w1 logs))))
          as (tails & Htr & Hall & Hputs & Hlen).
        exists ((logs ++ [EvBackoff]) :: tails). split_and!.
        -- rewrite Htr. simpl. unfold attempt_events at 2. simpl.
           by rewrite <- !app_assoc.
        -- constructor; [|done]. apply Forall_app_2; [done|].
           by repeat constructor.
        -- rewrite Hputs. simpl. lia.
        -- simpl. lia.
        -- simpl. lia.
      * exists [logs]. split_and!.
        -- simpl. unfold attempt_events. rewrite app_nil_r.
           by rewrite <- !app_assoc.
        -- by repeat constructor.
        -- simpl. lia.
        -- simpl. lia.
        -- simpl. lia.
    + exists [[]]. simpl. split_and!; [done| by repeat constructor |lia..].
Qed.

(** C5: a run of the retried PUT, however long and from any file and any
    read position, is a sequence of attempts, at least one as soon as the
    loop may run at all: every attempt begins with the seek of the spill
    file to offset 0, followed at once by the PUT, which finds the file at
    offset 0 with all of its bytes in front of it; between two attempts
    there is no other seek and no other PUT; and the attempts in the trace
    are all the PUTs the store received. *)
Theorem every_put_attempt_starts_at_offset_zero (store : blobstore)
    (self : PartitionUploader) (tpart : TarPartition) (url : string)
    (fuel : nat) (w : world) :
  exists tails : list (list event),
    w_trace (snd (retried_put_file_helper store fuel self tpart url w))
    = w_trace w ++ concat (map (attempt_events url (tf_data (w_tf w))) tails)
    /\ Forall (Forall between_attempts) tails
    /\ w_puts (snd (retried_put_file_helper store fuel self tpart url w))
       = (w_puts w + length tails)%nat
    /\ (Nat.min 1 fuel <= length tails <= fuel)%nat.
Proof. apply retry_attempts. Qed.

(** The run the specification's test describes: the first attempt takes
    two of the three bytes and fails with a socket error; the second
    attempt is offered all three again and sends them. *)
Example retried_put_recovers_full_content :
  retried_put_file_helper
    (fun n => match n with
              | O => {| pb_reads := 2; pb_elapsed := 1;
                        pb_raises := Some (new_exception socket_timeout
                                             "timed out" "uri_put_file") |}
              | S _ => {| pb_reads := 8; pb_elapsed := 1; pb_raises := None |}
              end)
    5
    {| pu_creds := "creds"; backup_prefix := "s3://bucket/backup";
       rate_limit := None; gpg_key := None |}
    {| tp_name := 3; tp_tarfile_write := Returns [] |} "url"
    {| w_trace := [];
       w_tf := {| tf_data := [Byte.x01; Byte.x02; Byte.x03]; tf_pos := 3 |};
       w_puts := 0; w_clock := 0 |}
  = (Some (Returns {| key_size := 3 |}),
     {| w_trace :=
          [EvSeek 0; EvPut "url" 0 [Byte.x01; Byte.x02; Byte.x03];
           EvLog INFO "Retrying send because of a socket error"
             ("The socket error's message is 'timed out'."
                +:+ "  There have been 1 attempts to send the volume 3 so far.")
             [];
           EvBackoff;
           EvSeek 0; EvPut "url" 0 [Byte.x01; Byte.x02; Byte.x03]];
        w_tf := {| tf_data := [Byte.x01; Byte.x02; Byte.x03]; tf_pos := 3 |};
        w_puts := 2; w_clock := 2 |}).
Proof. vm_compute. reflexivity. Qed.

(** The same over a whole call: every PUT of a volume upload is offered
    the bytes the pipeline spilled, from their first byte, although the
    pipeline left the file's position at its end. *)
Lemma partition_upload_puts_whole_spill
    (format_kib_per_second : Z -> Z -> nat -> string) (store : blobstore)
    (fuel : nat) (self : PartitionUploader) (tpart : TarPartition)
    (spilled : list Byte.byte) (w : world) :
  tp_tarfile_write tpart = Returns spilled ->
  exists new : list event,
    w_trace (snd (PartitionUploader___call__ format_kib_per_second store fuel
                    self tpart w))
    = w_trace w ++ new
    /\ Forall (put_from_start spilled) new.
Proof.
  intros Hspill.
  unfold PartitionUploader___call__, spill_volume, time_time, set_tf,
    retried_put_file_helper.
  unfold logger_info, lift, mbind, M_bind, bind, mret, M_ret, ret, emit.
  rewrite Hspill. cbn [fst snd w_trace w_tf w_puts w_clock].
  set (url := partition_url (backup_prefix self) (tp_name tpart)).
  set (w1 := {| w_trace := _; w_tf := {| tf_data := spilled |} |}).
  destruct (retry_puts_from_start store self tpart url fuel None w1)
    as (new & Htr & Hall & _ & _).
  destruct (retry fuel _ _ None w1) as [[[k|e]|] w2]; simpl in Htr |- *;
    rewrite Htr; subst w1; simpl; rewrite <- !app_assoc; simpl;
    eexists; (split; [reflexivity|]);
    repeat first [apply Forall_cons_2 | apply Forall_app_2 | apply Forall_nil_2];
    done.
Qed.

(** * Further properties *)

(** ** Keys: no collisions, wide ordinals, trailing slashes *)

Lemma append_cancel_l (s a b : string) : s +:+ a = s +:+ b -> a = b.
Proof. induction s as [|c s IH]; simpl; [done|]. intros [= H]. by apply IH. Qed.

Lemma append_cancel_r (a b t : string) : a +:+ t = b +:+ t -> a = b.
Proof.
  revert b. induction a as [|c a IH]; intros [|d b] H; simpl in H.
  - done.
  - apply (f_equal String.length) in H. simpl in H.
    rewrite length_append in H. lia.
  - apply (f_equal String.length) in H. simpl in H.
    rewrite length_append in H. lia.
  - injection H as -> H. f_equal. by apply IH.
Qed.

(** X1: under one prefix and one version, two segments get the same key
    only if they have the same name. *)
Theorem wal_url_injective_in_name (CURRENT_VERSION prefix name1 name2 : string) :
  wal_url CURRENT_VERSION prefix name1 = wal_url CURRENT_VERSION prefix name2 ->
  name1 = name2.
Proof.
  unfold wal_url. intros H.
  do 4 apply append_cancel_l in H. by apply append_cancel_r in H.
Qed.

Lemma wal_url_injective_in_name_witness :
  wal_url "005" "s3://bucket/wal/" "0001" = wal_url "005" "s3://bucket/wal/" "0001"
  /\ "0001" = "0001".
Proof.
  split; [reflexivity|].
  apply (wal_url_injective_in_name "005" "s3://bucket/wal/" "0001" "0001").
  reflexivity.
Defined.

(** X2: under one backup prefix, two volumes with ordinals in
    [0, 99999999] get the same key only if they have the same ordinal. *)
Theorem partition_url_injective_in_ordinal (backup_prefix : string) (n1 n2 : Z) :
  (0 <= n1 <= 99999999)%Z -> (0 <= n2 <= 99999999)%Z ->
  partition_url backup_prefix n1 = partition_url backup_prefix n2 ->
  n1 = n2.
Proof.
  unfold partition_url. intros H1 H2 H.
  do 2 apply append_cancel_l in H. apply append_cancel_r in H.
  destruct (format_08d_spec n1 H1) as (_ & _ & P1).
  destruct (format_08d_spec n2 H2) as (_ & _ & P2).
  rewrite H, P2 in P1. injection P1. lia.
Qed.

Lemma partition_url_injective_in_ordinal_witness :
  (0 <= 7 <= 99999999)%Z /\ (0 <= 7 <= 99999999)%Z
  /\ partition_url "s3://bucket/backup" 7 = partition_url "s3://bucket/backup" 7
  /\ 7%Z = 7%Z.
Proof.
  split; [lia|]. split; [lia|]. split; [reflexivity|].
  apply (partition_url_injective_in_ordinal "s3://bucket/backup" 7 7);
    [lia | lia | reflexivity].
Defined.

Lemma pretty_N_go_length_mono (x : N) (s : string) :
  (String.length s <= String.length (pretty_N_go x s))%nat.
Proof.
  revert s. induction (N.lt_wf_0 x) as [x _ IH]; intros s.
  destruct (decide (x = 0%N)) as [->|Hne].
  - by rewrite pretty_N_go_0.
  - rewrite pretty_N_go_step by lia.
    etrans; [|apply IH; apply N.div_lt; lia]. simpl. lia.
Qed.

(** A number from [10 ^ k] on takes more than [k] digits. *)
Lemma pretty_N_go_length_ge (k : nat) (x : N) (s : string) :
  (10 ^ N.of_nat k <= x)%N ->
  (k + 1 + String.length s <= String.length (pretty_N_go x s))%nat.
Proof.
  revert x s. induction k as [|k IH]; intros x s Hx.
  - simpl in Hx. rewrite pretty_N_go_step by lia.
    etrans; [|apply pretty_N_go_length_mono]. simpl. lia.
  - rewrite Nat2N.inj_succ, N.pow_succ_r' in Hx.
    rewrite pretty_N_go_step by lia.
    etrans; [|apply IH]; [simpl; lia|].
    apply N.div_le_lower_bound; lia.
Qed.

(** X3: for an ordinal of more than eight digits (100000000 and up) the
    numeric field of the key is the ordinal in decimal, unpadded and not
    cut: it is wider than eight characters. *)
Theorem partition_url_wide_ordinal (backup_prefix : string) (n : Z) :
  (100000000 <= n)%Z ->
  partition_url backup_prefix n
  = rstrip "/" backup_prefix +:+ "/tar_partitions/part_" +:+ str_int n
      +:+ ".tar.lzo"
  /\ (9 <= String.length (str_int n))%nat.
Proof.
  intros Hn.
  assert (9 <= String.length (str_int n))%nat as Hlen.
  { rewrite str_int_nonneg by lia. unfold pretty, pretty_N.
    rewrite decide_False by lia.
    pose proof (pretty_N_go_length_ge 8 (Z.to_N n) "") as H. simpl in H.
    apply H. lia. }
  split; [|done]. unfold partition_url, format_0d, zero_pad.
  rewrite bool_decide_eq_false_2 by lia.
  rewrite <- str_int_nonneg by lia.
  replace (8 - String.length (str_int n))%nat with 0%nat by lia. done.
Qed.

Lemma partition_url_wide_ordinal_witness :
  (100000000 <= 123456789)%Z
  /\ partition_url "s3://bucket/backup" 123456789
     = rstrip "/" "s3://bucket/backup" +:+ "/tar_partitions/part_"
         +:+ str_int 123456789 +:+ ".tar.lzo"
  /\ (9 <= String.length (str_int 123456789))%nat.
Proof.
  split; [lia|]. apply (partition_url_wide_ordinal "s3://bucket/backup" 123456789).
  lia.
Defined.

(** X4: prefixes that differ only in the number of slashes at their end
    give the same segment key and the same volume key. *)
Theorem keys_ignore_trailing_slashes (CURRENT_VERSION prefix name : string)
    (n : Z) (k : nat) :
  wal_url CURRENT_VERSION (prefix +:+ replicate_char k "/") name
  = wal_url CURRENT_VERSION prefix name
  /\ partition_url (prefix +:+ replicate_char k "/") n = partition_url prefix n.
Proof. unfold wal_url, partition_url. by rewrite rstrip_replicate. Qed.

(** ** WalUploader: a failed transfer *)

(** X5: when the transfer raises, [upload_to_blobstore] raises the same
    exception triple; it has logged the begin event and entered the
    transfer once, and logs no complete event and no error record. *)
Theorem upload_to_blobstore_failure_propagates (CURRENT_VERSION : string)
    (do_lzop_put : string -> string -> string -> option string -> outcome rate)
    (self : WalUploader) (segment : WalSegment) (e : raised) (w : world) :
  do_lzop_put (wu_creds self)
    (wal_url CURRENT_VERSION (layout_prefix self) (seg_name segment))
    (seg_path segment) (wu_gpg_key_id self) = Raises e ->
  exists (url begin_detail : string),
    url = wal_url CURRENT_VERSION (layout_prefix self) (seg_name segment)
    /\ upload_to_blobstore CURRENT_VERSION do_lzop_put self segment w
       = (Raises e,
          log_to w
            [EvLog INFO "begin archiving a file" begin_detail
               [("action", "push-wal"); ("key", url);
                ("seg", seg_name segment);
                ("prefix", layout_path_prefix self); ("state", "begin")];
             EvLzopPut url (seg_path segment)]).
Proof.
  intros Hput. eexists _, _. split; [reflexivity|].
  unfold upload_to_blobstore. run_M. rewrite Hput. run_M. reflexivity.
Qed.

Lemma upload_to_blobstore_failure_propagates_witness :
  (fun _ _ _ _ => Raises (new_exception IOError "broken pipe" "do_lzop_put"))
    "creds" (wal_url "005" "s3://bucket/wal" "0001") "pg_xlog/0001"
    (@None string)
  = (Raises (new_exception IOError "broken pipe" "do_lzop_put") : outcome rate)
  /\ exists (url begin_detail : string),
    url = wal_url "005" "s3://bucket/wal" "0001"
    /\ upload_to_blobstore "005"
         (fun _ _ _ _ => Raises (new_exception IOError "broken pipe" "do_lzop_put"))
         {| layout_prefix := "s3://bucket/wal"; layout_path_prefix := "wal";
            wu_creds := "creds"; wu_gpg_key_id := None |}
         {| seg_name := "0001"; seg_path := "pg_xlog/0001" |} world0
       = (Raises (new_exception IOError "broken pipe" "do_lzop_put"),
          log_to world0
            [EvLog INFO "begin archiving a file" begin_detail
               [("action", "push-wal"); ("key", url); ("seg", "0001");
                ("prefix", "wal"); ("state", "begin")];
             EvLzopPut url "pg_xlog/0001"]).
Proof.
  split; [reflexivity|].
  apply (upload_to_blobstore_failure_propagates "005"
           (fun _ _ _ _ => Raises (new_exception IOError "broken pipe" "do_lzop_put"))
           {| layout_prefix := "s3://bucket/wal"; layout_path_prefix := "wal";
              wu_creds := "creds"; wu_gpg_key_id := None |}
           {| seg_name := "0001"; seg_path := "pg_xlog/0001" |}
           (new_exception IOError "broken pipe" "do_lzop_put") world0).
  reflexivity.
Defined.

(** ** WalDualUploader: outcomes and log records *)

Ltac run_dual :=
  unfold WalDualUploader___call__, upload_to_blobstore, try_except;
  unfold run_when; run_M; rewrite ?thread_run_log_to; run_M.

Ltac thread_flag :=
  unfold WalNfsThread___init__;
  cbn [thr_success thr_push_function thr_segment orb].

(** X7: when the primary upload raises within [Exception] and the push
    fails too, the call raises the primary's exception instance (from the
    raise statement of the call, so with a new traceback), and the trace
    holds two error records: the blobstore failure first, the gluster
    failure second.  The secondary failure is in the log only. *)
Theorem dual_upload_both_fail (CURRENT_VERSION : string)
    (do_lzop_put : string -> string -> string -> option string -> outcome rate)
    (self : WalUploader) (upload_to_nfs : WalSegment -> outcome Z)
    (sched : schedule) (segment : WalSegment) (e : raised) (w : world) :
  do_lzop_put (wu_creds self)
    (wal_url CURRENT_VERSION (layout_prefix self) (seg_name segment))
    (seg_path segment) (wu_gpg_key_id self) = Raises e ->
  issubclass (r_typ e) Exception = true ->
  secondary_ok (upload_to_nfs segment) = false ->
  exists new : list event,
    WalDualUploader___call__
      (upload_to_blobstore CURRENT_VERSION do_lzop_put self)
      upload_to_nfs sched segment w
    = (Raises {| r_typ := exc_type (r_value e); r_value := r_value e;
                 r_tb := ["WalDualUploader.__call__"] |},
       log_to w new)
    /\ filter (fun ev => is_error_log ev) new
       = [EvLog ERROR ("failed to upload " +:+ seg_path segment +:+ " to blobstore")
            "" [];
          EvLog ERROR ("failed to upload " +:+ seg_path segment +:+ " to gluster")
            "" []].
Proof.
  intros Hput Hcaught Hsec.
  destruct sched; run_dual; rewrite Hput; run_M; rewrite Hcaught; run_M;
    rewrite ?thread_run_log_to; run_M; thread_flag; rewrite Hsec;
    rewrite bool_decide_eq_true_2 by done; run_M;
    eexists; (split; [reflexivity|]); reflexivity.
Qed.

Lemma dual_upload_both_fail_witness :
  failing_put IOError (wu_creds sample_uploader)
    (wal_url "005" (layout_prefix sample_uploader) (seg_name sample_segment))
    (seg_path sample_segment) (wu_gpg_key_id sample_uploader)
  = Raises (new_exception IOError "broken pipe" "do_lzop_put")
  /\ issubclass (r_typ (new_exception IOError "broken pipe" "do_lzop_put"))
       Exception = true
  /\ secondary_ok (Returns 5%Z) = false
  /\ exists new : list event,
    WalDualUploader___call__
      (upload_to_blobstore "005" (failing_put IOError) sample_uploader)
      (fun _ => Returns 5%Z) PushAfterPrimary sample_segment world0
    = (Raises {| r_typ := exc_type (r_value (new_exception IOError "broken pipe"
                                               "do_lzop_put"));
                 r_value := r_value (new_exception IOError "broken pipe"
                                       "do_lzop_put");
                 r_tb := ["WalDualUploader.__call__"] |},
       log_to world0 new)
    /\ filter (fun ev => is_error_log ev) new
       = [EvLog ERROR ("failed to upload " +:+ seg_path sample_segment
                         +:+ " to blobstore") "" [];
          EvLog ERROR ("failed to upload " +:+ seg_path sample_segment
                         +:+ " to gluster") "" []].
Proof.
  split; [reflexivity|]. split; [reflexivity|]. split; [reflexivity|].
  apply (dual_upload_both_fail "005" (failing_put IOError) sample_uploader
           (fun _ => Returns 5%Z) PushAfterPrimary sample_segment
           (new_exception IOError "broken pipe" "do_lzop_put") world0);
    reflexivity.
Defined.

(** X8: in every call whose primary upload returns or raises within
    [Exception], the last event of the call is the informational record
    [push result {True|False} for file {path}], and it says True exactly
    when the call returns. *)
Theorem dual_upload_logs_its_result (CURRENT_VERSION : string)
    (do_lzop_put : string -> string -> string -> option string -> outcome rate)
    (self : WalUploader) (upload_to_nfs : WalSegment -> outcome Z)
    (sched : schedule) (segment : WalSegment) (w : world) :
  caught_or_returned
    (do_lzop_put (wu_creds self)
       (wal_url CURRENT_VERSION (layout_prefix self) (seg_name segment))
       (seg_path segment) (wu_gpg_key_id self)) = true ->
  exists new : list event,
    snd (WalDualUploader___call__
           (upload_to_blobstore CURRENT_VERSION do_lzop_put self)
           upload_to_nfs sched segment w) = log_to w new
    /\ last new
       = Some (EvLog INFO
                 ("push result "
                    +:+ str_bool
                          (is_returns
                             (fst (WalDualUploader___call__
                                     (upload_to_blobstore CURRENT_VERSION
                                        do_lzop_put self)
                                     upload_to_nfs sched segment w)))
                    +:+ " for file " +:+ seg_path segment) "" []).
Proof.
  intros Hcaught.
  destruct sched; run_dual.
  all: destruct (do_lzop_put _ _ _ _) as [r|e]; simpl in Hcaught; run_M;
    rewrite ?Hcaught; run_M; rewrite ?thread_run_log_to; run_M.
  all: thread_flag.
  all: destruct (secondary_ok (upload_to_nfs segment));
    rewrite ?bool_decide_eq_true_2, ?bool_decide_eq_false_2 by done; run_M.
  all: cbn [snd fst andb is_returns].
  all: eexists; (split; [reflexivity|]); reflexivity.
Qed.

Lemma dual_upload_logs_its_result_witness :
  caught_or_returned
    (working_put (wu_creds sample_uploader)
       (wal_url "005" (layout_prefix sample_uploader) (seg_name sample_segment))
       (seg_path sample_segment) (wu_gpg_key_id sample_uploader)) = true
  /\ exists new : list event,
    snd (WalDualUploader___call__
           (upload_to_blobstore "005" working_put sample_uploader)
           (fun _ => Returns EEXIST) PushBeforePrimary sample_segment world0)
    = log_to world0 new
    /\ last new
       = Some (EvLog INFO
                 ("push result "
                    +:+ str_bool
                          (is_returns
                             (fst (WalDualUploader___call__
                                     (upload_to_blobstore "005" working_put
                                        sample_uploader)
                                     (fun _ => Returns EEXIST) PushBeforePrimary
                                     sample_segment world0)))
                    +:+ " for file " +:+ seg_path sample_segment) "" []).
Proof.
  split; [reflexivity|].
  apply (dual_upload_logs_its_result "005" working_put sample_uploader
           (fun _ => Returns EEXIST) PushBeforePrimary sample_segment world0).
  reflexivity.
Defined.

(** X9: an exception of the primary upload outside [Exception] leaves
    the call as the very triple it was raised with (type, value and
    traceback); on its way the call logs no error record and makes no
    join. *)
Theorem dual_upload_uncaught_exception_passes (CURRENT_VERSION : string)
    (do_lzop_put : string -> string -> string -> option string -> outcome rate)
    (self : WalUploader) (upload_to_nfs : WalSegment -> outcome Z)
    (sched : schedule) (segment : WalSegment) (e : raised) (w : world) :
  do_lzop_put (wu_creds self)
    (wal_url CURRENT_VERSION (layout_prefix self) (seg_name segment))
    (seg_path segment) (wu_gpg_key_id self) = Raises e ->
  issubclass (r_typ e) Exception = false ->
  exists new : list event,
    WalDualUploader___call__
      (upload_to_blobstore CURRENT_VERSION do_lzop_put self)
      upload_to_nfs sched segment w
    = (Raises e, log_to w new)
    /\ Forall (fun ev => is_error_log ev = false /\ is_join ev = false) new.
Proof.
  intros Hput Huncaught.
  destruct sched; run_dual; rewrite Hput; run_M; rewrite Huncaught;
    eexists; (split; [reflexivity|]); by repeat constructor.
Qed.

Lemma dual_upload_uncaught_exception_passes_witness :
  failing_put SystemExit (wu_creds sample_uploader)
    (wal_url "005" (layout_prefix sample_uploader) (seg_name sample_segment))
    (seg_path sample_segment) (wu_gpg_key_id sample_uploader)
  = Raises (new_exception SystemExit "broken pipe" "do_lzop_put")
  /\ issubclass (r_typ (new_exception SystemExit "broken pipe" "do_lzop_put"))
       Exception = false
  /\ exists new : list event,
    WalDualUploader___call__
      (upload_to_blobstore "005" (failing_put SystemExit) sample_uploader)
      (fun _ => Returns 0%Z) PushBeforePrimary sample_segment world0
    = (Raises (new_exception SystemExit "broken pipe" "do_lzop_put"),
       log_to world0 new)
    /\ Forall (fun ev => is_error_log ev = false /\ is_join ev = false) new.
Proof.
  split; [reflexivity|]. split; [reflexivity|].
  apply (dual_upload_uncaught_exception_passes "005" (failing_put SystemExit)
           sample_uploader (fun _ => Returns 0%Z) PushBeforePrimary
           sample_segment
           (new_exception SystemExit "broken pipe" "do_lzop_put") world0);
    reflexivity.
Defined.

(** X10: in every call whose primary upload returns or raises within
    [Exception], the call returns exactly when its trace holds no error
    record: a success logs no error, and a failure is never silent. *)
Theorem dual_upload_error_logged_iff_failure (CURRENT_VERSION : string)
    (do_lzop_put : string -> string -> string -> option string -> outcome rate)
    (self : WalUploader) (upload_to_nfs : WalSegment -> outcome Z)
    (sched : schedule) (segment : WalSegment) (w : world) :
  caught_or_returned
    (do_lzop_put (wu_creds self)
       (wal_url CURRENT_VERSION (layout_prefix self) (seg_name segment))
       (seg_path segment) (wu_gpg_key_id self)) = true ->
  exists new : list event,
    snd (WalDualUploader___call__
           (upload_to_blobstore CURRENT_VERSION do_lzop_put self)
           upload_to_nfs sched segment w) = log_to w new
    /\ is_returns
         (fst (WalDualUploader___call__
                 (upload_to_blobstore CURRENT_VERSION do_lzop_put self)
                 upload_to_nfs sched segment w))
       = (length (filter (fun ev => is_error_log ev) new) =? 0)%nat.
Proof.
  intros Hcaught.
  destruct sched; run_dual.
  all: destruct (do_lzop_put _ _ _ _) as [r|e]; simpl in Hcaught; run_M;
    rewrite ?Hcaught; run_M; rewrite ?thread_run_log_to; run_M.
  all: thread_flag.
  all: destruct (secondary_ok (upload_to_nfs segment));
    rewrite ?bool_decide_eq_true_2, ?bool_decide_eq_false_2 by done; run_M.
  all: cbn [snd fst andb is_returns].
  all: eexists; (split; [reflexivity|]); reflexivity.
Qed.

Lemma dual_upload_error_logged_iff_failure_witness :
  caught_or_returned
    (failing_put IOError (wu_creds sample_uploader)
       (wal_url "005" (layout_prefix sample_uploader) (seg_name sample_segment))
       (seg_path sample_segment) (wu_gpg_key_id sample_uploader)) = true
  /\ exists new : list event,
    snd (WalDualUploader___call__
           (upload_to_blobstore "005" (failing_put IOError) sample_uploader)
           (fun _ => Returns 0%Z) PushAfterPrimary sample_segment world0)
    = log_to world0 new
    /\ is_returns
         (fst (WalDualUploader___call__
                 (upload_to_blobstore "005" (failing_put IOError) sample_uploader)
                 (fun _ => Returns 0%Z) PushAfterPrimary sample_segment world0))
       = (length (filter (fun ev => is_error_log ev) new) =? 0)%nat.
Proof.
  split; [reflexivity|].
  apply (dual_upload_error_logged_iff_failure "005" (failing_put IOError)
           sample_uploader (fun _ => Returns 0%Z) PushAfterPrimary
           sample_segment world0).
  reflexivity.
Defined.

(** ** PartitionUploader: classifier and whole call *)

(** X11: whatever the failure and the attempt count, the classifier does
    one of two things: it returns, having logged exactly one record, at
    the informational level; or it raises the triple it was given, having
    logged nothing.  It raises no other exception and logs no error. *)
Theorem classifier_returns_or_reraises (tpart : TarPartition)
    (exc_tup : raised) (exc_processor_cxt : Z) (w : world) :
  (exists msg detail : string,
      log_volume_failures_on_error tpart exc_tup exc_processor_cxt w
      = (Returns tt, log_to w [EvLog INFO msg detail []]))
  \/ log_volume_failures_on_error tpart exc_tup exc_processor_cxt w
     = (Raises exc_tup, w).
Proof.
  unfold log_volume_failures_on_error.
  destruct (issubclass (r_typ exc_tup) socket_error);
    [|destruct (issubclass (r_typ exc_tup) S3ResponseError
               && bool_decide (exc_error_code (r_value exc_tup)
                               = Some "RequestTimeTooSkewed"))].
  1,2: left; eexists _, _; reflexivity.
  right. by destruct exc_tup.
Qed.

(** X12: when writing the volume through the pipeline raises, the call
    raises that exception, however many attempts the retry would allow:
    only the record of the beginning compression is logged, no key is
    announced, no PUT reaches the store, and the temporary file is closed. *)
Theorem partition_upload_pipeline_failure
    (format_kib_per_second : Z -> Z -> nat -> string) (store : blobstore)
    (fuel : nat) (self : PartitionUploader) (tpart : TarPartition)
    (e : raised) (w : world) :
  tp_tarfile_write tpart = Raises e ->
  PartitionUploader___call__ format_kib_per_second store fuel self tpart w
  = (Some (Raises e),
     {| w_trace :=
          w_trace w
          ++ [EvLog INFO "beginning volume compression"
                ("Building volume " +:+ str_int (tp_name tpart) +:+ ".") []];
        w_tf := {| tf_data := []; tf_pos := 0 |};
        w_puts := w_puts w;
        w_clock := w_clock w |}).
Proof.
  intros Hspill.
  unfold PartitionUploader___call__, spill_volume, time_time, set_tf.
  unfold logger_info, lift, mbind, M_bind, bind, mret, M_ret, ret, emit.
  rewrite Hspill. reflexivity.
Qed.

Lemma partition_upload_pipeline_failure_witness :
  tp_tarfile_write broken_partition
  = Raises (new_exception IOError "lzop died" "tarfile_write")
  /\ PartitionUploader___call__ (fun _ _ _ => "1.0") accepting_store 0
       sample_partition_uploader broken_partition world0
     = (Some (Raises (new_exception IOError "lzop died" "tarfile_write")),
        {| w_trace :=
             w_trace world0
             ++ [EvLog INFO "beginning volume compression"
                   ("Building volume " +:+ str_int (tp_name broken_partition)
                      +:+ ".") []];
           w_tf := {| tf_data := []; tf_pos := 0 |};
           w_puts := w_puts world0;
           w_clock := w_clock world0 |}).
Proof.
  split; [reflexivity|].
  apply (partition_upload_pipeline_failure (fun _ _ _ => "1.0") accepting_store 0
           sample_partition_uploader broken_partition
           (new_exception IOError "lzop died" "tarfile_write") world0).
  reflexivity.
Defined.

(** A retried PUT that returns has ended on an attempt the store took. *)
Lemma retry_returns_after_successful_put (store : blobstore)
    (self : PartitionUploader) (tpart : TarPartition) (url : string)
    (fuel : nat) (cxt : option Z) (w w' : world) (k : key) :
  retry fuel (retry_with_count (log_volume_failures_on_error tpart))
    (put_file_helper store self url) cxt w = (Some (Returns k), w') ->
  (w_puts w < w_puts w')%nat
  /\ pb_raises (store (pred (w_puts w'))) = None
  /\ key_size k
     = length (take (pb_reads (store (pred (w_puts w')))) (tf_data (w_tf w))).
Proof.
  revert cxt w. induction fuel as [|fuel IH]; intros cxt w; [done|].
  rewrite retry_S, put_file_helper_run. cbv zeta.
  set (w1 := {| w_trace := _ |}).
  destruct (pb_raises (store (w_puts w))) as [exc_tup|] eqn:Hput.
  - rewrite retry_with_count_run. cbv zeta.
    set (n := match cxt with Some c => _ | None => _ end).
    destruct (classifier_keeps_file tpart exc_tup n w1) as (logs & Hw & _).
    destruct (log_volume_failures_on_error tpart exc_tup n w1) as [[[]|e] w2];
      simpl in Hw; subst w2; [|done].
    intros H. apply IH in H. simpl in H. destruct H as (H1 & H2 & H3).
    split_and!; [lia|done|done].
  - intros [= <- <-]. simpl. split_and!; [lia|done|done].
Qed.

(** X13: a call that returns gives back the volume it was given, and
    only after the pipeline succeeded and the store took a PUT: the last
    PUT attempt the store received raised nothing.  The temporary file is
    closed by then. *)
Theorem partition_upload_returns_only_after_put
    (format_kib_per_second : Z -> Z -> nat -> string) (store : blobstore)
    (fuel : nat) (self : PartitionUploader) (tpart a : TarPartition)
    (w w' : world) :
  PartitionUploader___call__ format_kib_per_second store fuel self tpart w
  = (Some (Returns a), w') ->
  a = tpart
  /\ (exists spilled, tp_tarfile_write tpart = Returns spilled)
  /\ (w_puts w < w_puts w')%nat
  /\ pb_raises (store (pred (w_puts w'))) = None
  /\ w_tf w' = {| tf_data := []; tf_pos := 0 |}.
Proof.
  unfold PartitionUploader___call__, spill_volume, time_time, set_tf,
    retried_put_file_helper.
  unfold logger_info, lift, mbind, M_bind, bind, mret, M_ret, ret, emit.
  destruct (tp_tarfile_write tpart) as [spilled|e]; [|done].
  cbn [fst snd w_trace w_tf w_puts w_clock].
  set (url := partition_url (backup_prefix self) (tp_name tpart)).
  set (w1 := {| w_trace := _; w_tf := {| tf_data := spilled |} |}).
  destruct (retry fuel _ _ None w1) as [[[k|e]|] w2] eqn:Hretry; [|done..].
  intros [= <- <-].
  apply retry_returns_after_successful_put in Hretry as (H1 & H2 & _).
  simpl in *. split_and!; try done. by exists spilled.
Qed.

Lemma partition_upload_returns_only_after_put_witness :
  let call :=
    PartitionUploader___call__ (fun _ _ _ => "1.0") accepting_store 1
      sample_partition_uploader sample_partition world0 in
  call = (Some (Returns sample_partition), snd call)
  /\ sample_partition = sample_partition
  /\ (exists spilled, tp_tarfile_write sample_partition = Returns spilled)
  /\ (w_puts world0 < w_puts (snd call))%nat
  /\ pb_raises (accepting_store (pred (w_puts (snd call)))) = None
  /\ w_tf (snd call) = {| tf_data := []; tf_pos := 0 |}.
Proof.
  cbv zeta. split; [reflexivity|].
  apply (partition_upload_returns_only_after_put (fun _ _ _ => "1.0")
           accepting_store 1 sample_partition_uploader sample_partition
           sample_partition world0).
  reflexivity.
Defined.

(** X14: when the pipeline succeeded and the first PUT fails with an
    error the classifier does not screen for, the call raises that very
    triple after the two begin records, one seek and one PUT: no retry,
    no finish record, and the temporary file is closed. *)
Theorem partition_upload_fatal_put
    (format_kib_per_second : Z -> Z -> nat -> string) (store : blobstore)
    (fuel : nat) (self : PartitionUploader) (tpart : TarPartition)
    (spilled : list Byte.byte) (exc_tup : raised) (w : world) :
  tp_tarfile_write tpart = Returns spilled ->
  pb_raises (store (w_puts w)) = Some exc_tup ->
  retryable exc_tup = false ->
  exists (w' : world) (url : string),
    url = partition_url (backup_prefix self) (tp_name tpart)
    /\ PartitionUploader___call__ format_kib_per_second store (S fuel) self
         tpart w = (Some (Raises exc_tup), w')
    /\ w_trace w'
       = w_trace w
         ++ [EvLog INFO "beginning volume compression"
               ("Building volume " +:+ str_int (tp_name tpart) +:+ ".") [];
             EvLog INFO "begin uploading a base backup volume"
               ("Uploading to " +:+ dq +:+ url +:+ dq +:+ ".") [];
             EvSeek 0; EvPut url 0 spilled]
    /\ w_puts w' = S (w_puts w)
    /\ w_tf w' = {| tf_data := []; tf_pos := 0 |}.
Proof.
  intros Hspill Hput Hfatal. eexists _, _. split; [reflexivity|].
  unfold PartitionUploader___call__, spill_volume, time_time, set_tf,
    retried_put_file_helper.
  unfold logger_info, lift, mbind, M_bind, bind, mret, M_ret, ret, emit.
  rewrite Hspill. cbn [fst snd w_trace w_tf w_puts w_clock].
  rewrite retry_S, put_file_helper_run. cbv zeta.
  cbn [fst snd w_trace w_tf w_puts w_clock tf_data]. rewrite Hput.
  rewrite retry_with_count_run. cbv zeta. rewrite classifier_fatal by done.
  split; [reflexivity|]. simpl. rewrite <- !app_assoc. by split_and!.
Qed.

Lemma partition_upload_fatal_put_witness :
  let store : blobstore :=
    fun _ => {| pb_reads := 1; pb_elapsed := 2;
                pb_raises := Some (new_exception ValueError "bad key"
                                     "uri_put_file") |} in
  tp_tarfile_write sample_partition = Returns [Byte.x01; Byte.x02; Byte.x03]
  /\ pb_raises (store (w_puts world0))
     = Some (new_exception ValueError "bad key" "uri_put_file")
  /\ retryable (new_exception ValueError "bad key" "uri_put_file") = false
  /\ exists (w' : world) (url : string),
    url = partition_url (backup_prefix sample_partition_uploader)
            (tp_name sample_partition)
    /\ PartitionUploader___call__ (fun _ _ _ => "1.0") store 3
         sample_partition_uploader sample_partition world0
       = (Some (Raises (new_exception ValueError "bad key" "uri_put_file")), w')
    /\ w_trace w'
       = w_trace world0
         ++ [EvLog INFO "beginning volume compression"
               ("Building volume " +:+ str_int (tp_name sample_partition) +:+ ".")
               [];
             EvLog INFO "begin uploading a base backup volume"
               ("Uploading to " +:+ dq +:+ url +:+ dq +:+ ".") [];
             EvSeek 0; EvPut url 0 [Byte.x01; Byte.x02; Byte.x03]]
    /\ w_puts w' = S (w_puts world0)
    /\ w_tf w' = {| tf_data := []; tf_pos := 0 |}.
Proof.
  cbv zeta. split; [reflexivity|]. split; [reflexivity|]. split; [reflexivity|].
  apply (partition_upload_fatal_put (fun _ _ _ => "1.0")
           (fun _ => {| pb_reads := 1; pb_elapsed := 2;
                        pb_raises := Some (new_exception ValueError "bad key"
                                             "uri_put_file") |})
           2 sample_partition_uploader sample_partition
           [Byte.x01; Byte.x02; Byte.x03]
           (new_exception ValueError "bad key" "uri_put_file") world0);
    reflexivity.
Defined.


